(** * Agente de Análise de Notas Fiscais: consolidation and query tools

    A shallow embedding of [Agente_streamlit.py]: the preprocessing step
    [_load_and_preprocess_data] of [AgenteNotasFiscais] (normalisation of the
    column labels, numeric coercion, inner join on CHAVE DE ACESSO, null
    fill) and the five query tools that read [data_repo.df].

    Modelling conventions.
    - A Python [str] is a [string] holding its UTF-8 bytes.
    - A pandas cell is missing ([NA]), a number ([Num]) or text ([Str]).
      Numbers are exact decimals [mant / 10^scale]; the rounding of binary
      floating point and the infinities are outside the model.
    - A [DataFrame] is its list of column labels and its list of rows; the
      row index is the position (a [RangeIndex]).
    - The caller's two frames are objects that the step mutates, so the step
      is a computation over a memory that holds them.
    - A tool returns the Python value handed to [json.dumps] (or the Series
      handed to [to_json]), or raises. *)

From Stdlib Require Import String Ascii List Bool Arith ZArith NArith Lia.
From Stdlib Require Import Decimal DecimalString DecimalN.
From Stdlib Require Import Permutation Sorted.
Import ListNotations.

Local Open Scope string_scope.
Local Open Scope list_scope.

(** ** Python strings *)

Module PyStr.

(** [str.isspace] on the ASCII range: TAB..CR, FS..US and the space. *)
Definition py_isspace (c : ascii) : bool :=
  let n := nat_of_ascii c in
  ((9 <=? n)%nat && (n <=? 13)%nat) || ((28 <=? n)%nat && (n <=? 32)%nat).

(** C [isspace] in the C locale, used by the pandas number parser. *)
Definition c_isspace (c : ascii) : bool :=
  let n := nat_of_ascii c in
  ((9 <=? n)%nat && (n <=? 13)%nat) || (n =? 32)%nat.

Fixpoint lstrip (sp : ascii -> bool) (s : string) : string :=
  match s with
  | String c r => if sp c then lstrip sp r else s
  | EmptyString => EmptyString
  end.

Fixpoint rstrip (sp : ascii -> bool) (s : string) : string :=
  match s with
  | String c r =>
      match rstrip sp r with
      | EmptyString => if sp c then EmptyString else String c EmptyString
      | r' => String c r'
      end
  | EmptyString => EmptyString
  end.

(** [s.strip()]: whitespace removed at both ends (ASCII whitespace; the
    whitespace of other Unicode blocks is not modelled). *)
Definition strip (s : string) : string := rstrip py_isspace (lstrip py_isspace s).

Definition ascii_upper (c : ascii) : ascii :=
  let n := nat_of_ascii c in
  if (97 <=? n)%nat && (n <=? 122)%nat then ascii_of_nat (n - 32) else c.

(** Second byte of a two-byte sequence led by 0xC3 (U+00C0..U+00FF): the
    lower-case letters U+00E0..U+00FE, except the division sign U+00F7, go
    to U+00C0..U+00DE. *)
Definition latin1_upper (c : ascii) : ascii :=
  let n := nat_of_ascii c in
  if (160 <=? n)%nat && (n <=? 190)%nat && negb (n =? 183)%nat then ascii_of_nat (n - 32) else c.

(** [s.upper()] on UTF-8 bytes: Basic Latin and Latin-1 Supplement letters.
    Python also maps the letters of further scripts, and sends U+00DF,
    U+00FF and U+00B5 outside this range; those are left as they are. *)
Fixpoint upper (s : string) : string :=
  match s with
  | EmptyString => EmptyString
  | String c r =>
      if (nat_of_ascii c =? 195)%nat then
        match r with
        | String d r' => String c (String (latin1_upper d) (upper r'))
        | EmptyString => String c EmptyString
        end
      else String (ascii_upper c) (upper r)
  end.

(** [s.replace(a, b)] for one-character [a] and [b]: every occurrence. *)
Fixpoint replace_char (a b : ascii) (s : string) : string :=
  match s with
  | EmptyString => EmptyString
  | String c r => String (if Ascii.eqb c a then b else c) (replace_char a b r)
  end.

Definition is_digit (c : ascii) : bool :=
  let n := nat_of_ascii c in (48 <=? n)%nat && (n <=? 57)%nat.

(** Longest prefix of digits, and the rest. *)
Fixpoint span_digits (s : string) : string * string :=
  match s with
  | String c r =>
      if is_digit c then let '(d, t) := span_digits r in (String c d, t)
      else (EmptyString, s)
  | EmptyString => (EmptyString, EmptyString)
  end.

Fixpoint all_chars (p : ascii -> bool) (s : string) : bool :=
  match s with
  | EmptyString => true
  | String c r => p c && all_chars p r
  end.

(** Value of a string of digits, [0] when it is not one. *)
Definition digits_value (s : string) : N :=
  match NilEmpty.uint_of_string s with
  | Some u => N.of_uint u
  | None => 0%N
  end.

Definition digits_of_N (n : N) : string := NilEmpty.string_of_uint (N.to_uint n).

Fixpoint zeros (n : nat) : string :=
  match n with O => EmptyString | S k => String "0" (zeros k) end.

(** The first [n] characters and the rest. *)
Fixpoint split_at (n : nat) (s : string) : string * string :=
  match n, s with
  | S k, String c r => let '(a, b) := split_at k r in (String c a, b)
  | _, _ => (EmptyString, s)
  end.

End PyStr.
Import PyStr.

(** ** Numbers *)

(** An exact decimal: [mant / 10^scale].  [scale = 0] is how an integer
    prints ("12"), [scale > 0] how a float prints ("12.50"). *)
Record dec : Type := mkDec { mant : Z; scale : nat }.

Definition pow10 (n : nat) : Z := 10 ^ Z.of_nat n.

Definition dec_zero : dec := mkDec 0 0.

Definition dec_add (a b : dec) : dec :=
  let s := Nat.max (scale a) (scale b) in
  mkDec (mant a * pow10 (s - scale a) + mant b * pow10 (s - scale b)) s.

Definition dec_leb (a b : dec) : bool :=
  (mant a * pow10 (scale b) <=? mant b * pow10 (scale a))%Z.

Definition dec_ltb (a b : dec) : bool := negb (dec_leb b a).

Definition dec_eqb (a b : dec) : bool := dec_leb a b && dec_leb b a.

Definition dec_sum (l : list dec) : dec := fold_left dec_add l dec_zero.

(** [int(x)] of a float: truncation towards zero. *)
Definition dec_trunc (a : dec) : Z := Z.quot (mant a) (pow10 (scale a)).

(** [str(x)] of a number, in positional notation: the digits of [|mant|],
    padded with zeros so that one digit stands before the point, the point
    before the last [scale] digits.  (Python switches to exponent notation
    for a float below 1e-4 or from 1e16 on; the parser below reads both
    notations to the same value.) *)
Definition print_dec (d : dec) : string :=
  let ds := digits_of_N (Z.abs_N (mant d)) in
  let ds := (zeros (S (scale d) - String.length ds) ++ ds)%string in
  let '(ip, fp) := split_at (String.length ds - scale d) ds in
  ((if (mant d <? 0)%Z then "-" else "") ++ ip ++
   (match scale d with O => "" | S _ => "." ++ fp end))%string.

(** ** Cells *)

Inductive cell : Type :=
| NA                (* NaN / None *)
| Num (d : dec)
| Str (s : string).

Definition isna (c : cell) : bool :=
  match c with NA => true | _ => false end.

(** [Series.astype(str)], cell by cell. *)
Definition astype_str (c : cell) : string :=
  match c with
  | NA => "nan"
  | Num d => print_dec d
  | Str s => s
  end.

Definition read_sign (s : string) : bool * string :=
  match s with
  | String "-" r => (true, r)
  | String "+" r => (false, r)
  | _ => (false, s)
  end.

(** The exponent part of a literal: nothing, or [e]/[E], an optional sign
    and at least one digit, up to the end of the text. *)
Definition read_exponent (s : string) : option Z :=
  match s with
  | EmptyString => Some 0%Z
  | String c r =>
      if Ascii.eqb c "e" || Ascii.eqb c "E" then
        let '(neg, r1) := read_sign r in
        let '(ds, r2) := span_digits r1 in
        match ds, r2 with
        | String _ _, EmptyString =>
            let v := Z.of_N (digits_value ds) in
            Some (if neg then (- v)%Z else v)
        | _, _ => None
        end
      else None
  end.

Definition make_dec (neg : bool) (digits : string) (nfrac : nat) (e : Z) : dec :=
  let m := Z.of_N (digits_value digits) in
  let m := if neg then (- m)%Z else m in
  let sh := (e - Z.of_nat nfrac)%Z in
  if (0 <=? sh)%Z then mkDec (m * 10 ^ sh) 0 else mkDec m (Z.to_nat (- sh)).

(** [pd.to_numeric(..., errors='coerce')] on one text: a decimal literal
    (blanks around it, sign, digits, point, exponent) is read as its value,
    any other text becomes the missing value.  The words that pandas reads
    as infinities have no value in this number model. *)
Definition to_numeric_str (s : string) : cell :=
  let s1 := rstrip c_isspace (lstrip c_isspace s) in
  let '(neg, s2) := read_sign s1 in
  let '(ip, r1) := span_digits s2 in
  let '(fp, r2) := match r1 with
                   | String "." r => span_digits r
                   | _ => (EmptyString, r1)
                   end in
  match (ip ++ fp)%string with
  | EmptyString => NA
  | digits =>
      match read_exponent r2 with
      | Some e => Num (make_dec neg digits (String.length fp) e)
      | None => NA
      end
  end.

(** One cell of
    [pd.to_numeric(col.astype(str).str.replace(',', '.', regex=False), errors='coerce')]. *)
Definition coerce_cell (c : cell) : cell :=
  to_numeric_str (replace_char "," "." (astype_str c)).





(** ** Data frames *)

Record DataFrame : Type := mkDF { columns : list string; rows : list (list cell) }.

(** [pd.DataFrame()]. *)
Definition empty_frame : DataFrame := mkDF [] [].

(** [df.empty]: some axis has length zero. *)
Definition df_empty (df : DataFrame) : bool :=
  (length (columns df) =? 0)%nat || (length (rows df) =? 0)%nat.

(** A frame is rectangular. *)
Definition wf_frame (df : DataFrame) : Prop :=
  Forall (fun r => length r = length (columns df)) (rows df).

Definition wf_frameb (df : DataFrame) : bool :=
  forallb (fun r => (length r =? length (columns df))%nat) (rows df).

(** [col in df.columns]. *)
Definition has_column (col : string) (labels : list string) : bool :=
  existsb (String.eqb col) labels.

Definition count_label (col : string) (labels : list string) : nat :=
  length (filter (String.eqb col) labels).

(** The cell of a row under the first column labelled [col]. *)
Fixpoint get_labelled (col : string) (labels : list string) (row : list cell) : cell :=
  match labels, row with
  | l :: ls, c :: cs => if String.eqb col l then c else get_labelled col ls cs
  | _, _ => NA
  end.

(** [f] applied to the cells of a row under the columns labelled [col]. *)
Fixpoint map_labelled (f : cell -> cell) (col : string)
    (labels : list string) (row : list cell) : list cell :=
  match labels, row with
  | l :: ls, c :: cs =>
      (if String.eqb col l then f c else c) :: map_labelled f col ls cs
  | _, _ => row
  end.

(** The cells of a row under the columns whose label satisfies [p], removed. *)
Fixpoint drop_labelled (p : string -> bool)
    (labels : list string) (row : list cell) : list cell :=
  match labels, row with
  | l :: ls, c :: cs =>
      if p l then drop_labelled p ls cs else c :: drop_labelled p ls cs
  | _, _ => row
  end.

(** [df[col] = f(df[col])]. *)
Definition assign_column (f : cell -> cell) (col : string) (df : DataFrame) : DataFrame :=
  mkDF (columns df) (map (map_labelled f col (columns df)) (rows df)).

(** [df.columns = labels]. *)
Definition set_columns (labels : list string) (df : DataFrame) : DataFrame :=
  mkDF labels (rows df).

(** [df.rename(columns={a: b}, inplace=True)]. *)
Definition rename_column (a b : string) (df : DataFrame) : DataFrame :=
  mkDF (map (fun c => if String.eqb c a then b else c) (columns df)) (rows df).

(** [df.drop(columns=cols, errors='ignore')]: a new frame. *)
Definition drop_columns (cols : list string) (df : DataFrame) : DataFrame :=
  let p := fun l => has_column l cols in
  mkDF (filter (fun l => negb (p l)) (columns df))
       (map (drop_labelled p (columns df)) (rows df)).

(** Equality of join keys. *)
Definition cell_eqb (a b : cell) : bool :=
  match a, b with
  | NA, NA => true
  | Num x, Num y => dec_eqb x y
  | Str s, Str t => String.eqb s t
  | _, _ => false
  end.

(** [pd.merge(left, right, on=key, how='inner')] for frames that share no
    other label: every pair of a left row and a right row with equal keys,
    the left cells followed by the right cells without the key.  Pairs are
    listed by left row, then by right row. *)
Definition merge_inner (key : string) (left right : DataFrame) : DataFrame :=
  mkDF (columns left ++ filter (fun l => negb (String.eqb key l)) (columns right))
       (flat_map
          (fun l =>
             map (fun r => l ++ drop_labelled (String.eqb key) (columns right) r)
                 (filter (fun r => cell_eqb (get_labelled key (columns right) r)
                                            (get_labelled key (columns left) l))
                         (rows right)))
          (rows left)).

Definition sentinel : string := "Não especificado".

(** [df.fillna({'ITEM': v, 'FORNECEDOR': v}, inplace=True)]. *)
Definition fillna_cell (v : cell) (c : cell) : cell := if isna c then v else c.

Definition fillna_columns (cols : list string) (v : cell) (df : DataFrame) : DataFrame :=
  fold_left (fun d col => assign_column (fillna_cell v) col d) cols df.

(** [df.fillna(0, inplace=True)]. *)
Definition fillna_all (v : cell) (df : DataFrame) : DataFrame :=
  mkDF (columns df) (map (map (fillna_cell v)) (rows df)).

(** ** The memory of the step, and computations over it *)

Inductive exn : Type :=
| KeyError | ValueError | TypeError | AttributeError | OverflowError | ReError.

Inductive st_msg : Type :=
| MsgWrite (s : string)
| MsgError (s : string)
| MsgSuccess (s : string).

(** The objects the step reads and writes: the two frames of the caller
    ([None] when absent), the attribute [self.df_consolidado], the global
    [data_repo.df] and what was sent to the page. *)
Record Mem : Type := mkMem {
  df_cabecalho : option DataFrame;
  df_itens : option DataFrame;
  df_consolidado : DataFrame;
  data_repo_df : DataFrame;
  st_out : list st_msg
}.

Inductive res (A : Type) : Type :=
| Done (a : A)
| Raised (e : exn).
Arguments Done {A} a.
Arguments Raised {A} e.

Definition M (A : Type) : Type := Mem -> Mem * res A.

Definition ret {A} (a : A) : M A := fun m => (m, Done a).

Definition bind {A B} (c : M A) (k : A -> M B) : M B :=
  fun m => match c m with
           | (m', Done a) => k a m'
           | (m', Raised e) => (m', Raised e)
           end.

Definition raise {A} (e : exn) : M A := fun m => (m, Raised e).

Declare Scope py_scope.
Delimit Scope py_scope with py.
Notation "x <- c ;; k" := (bind c (fun x => k))
  (at level 61, c at next level, right associativity) : py_scope.
Notation "c ;; k" := (bind c (fun _ => k))
  (at level 61, right associativity) : py_scope.
Local Open Scope py_scope.

Inductive frame_ref : Type := Cabecalho | Itens.

Definition frame_at (w : frame_ref) (m : Mem) : option DataFrame :=
  match w with Cabecalho => df_cabecalho m | Itens => df_itens m end.

(** Reading a frame through its reference; an attribute of [None] raises. *)
Definition read (w : frame_ref) : M DataFrame :=
  fun m => match frame_at w m with
           | Some df => (m, Done df)
           | None => (m, Raised AttributeError)
           end.

(** In-place update of the frame behind a reference. *)
Definition update (w : frame_ref) (f : DataFrame -> DataFrame) : M unit :=
  fun m =>
    match w with
    | Cabecalho =>
        (mkMem (option_map f (df_cabecalho m)) (df_itens m) (df_consolidado m)
               (data_repo_df m) (st_out m), Done tt)
    | Itens =>
        (mkMem (df_cabecalho m) (option_map f (df_itens m)) (df_consolidado m)
               (data_repo_df m) (st_out m), Done tt)
    end.

Definition is_none (w : frame_ref) : M bool :=
  fun m => (m, Done (match frame_at w m with Some _ => false | None => true end)).

Definition get_consolidado : M DataFrame := fun m => (m, Done (df_consolidado m)).

Definition set_consolidado (df : DataFrame) : M unit :=
  fun m => (mkMem (df_cabecalho m) (df_itens m) df (data_repo_df m) (st_out m), Done tt).

Definition set_data_repo (df : DataFrame) : M unit :=
  fun m => (mkMem (df_cabecalho m) (df_itens m) (df_consolidado m) df (st_out m), Done tt).

Definition st_emit (msg : st_msg) : M unit :=
  fun m => (mkMem (df_cabecalho m) (df_itens m) (df_consolidado m) (data_repo_df m)
                  (st_out m ++ [msg]), Done tt).

Fixpoint for_each {A} (l : list A) (body : A -> M unit) : M unit :=
  match l with
  | [] => ret tt
  | x :: r => body x ;; for_each r body
  end.

(** ** [AgenteNotasFiscais._load_and_preprocess_data] *)

Definition chave : string := "CHAVE DE ACESSO".

(** [str(col).strip().upper()]. *)
Definition normalize_label (col : string) : string := upper (strip col).

(** The body of the two coercion loops: [df[col]] is a frame, without the
    [.str] accessor, when the label occurs more than once. *)
Definition coerce_numeric (w : frame_ref) (col : string) : M unit :=
  df <- read w ;;
  if has_column col (columns df) then
    if (count_label col (columns df) =? 1)%nat
    then update w (assign_column coerce_cell col)
    else raise AttributeError
  else ret tt.

(** [pd.merge] refuses a key label that is not unique. *)
Definition merge_checked (key : string) (left right : DataFrame) : M DataFrame :=
  if ((count_label key (columns left) =? 1) && (count_label key (columns right) =? 1))%nat
  then ret (merge_inner key left right)
  else raise ValueError.

Definition _load_and_preprocess_data : M unit :=
  st_emit (MsgWrite "Carregando e pré-processando dados...") ;;
  nc <- is_none Cabecalho ;;
  ni <- is_none Itens ;;
  if nc || ni then
    st_emit (MsgError "Dados de cabeçalho ou itens não fornecidos.")
  else
    update Cabecalho (fun df => set_columns (map normalize_label (columns df)) df) ;;
    update Itens (fun df => set_columns (map normalize_label (columns df)) df) ;;
    update Cabecalho (rename_column "RAZÃO SOCIAL EMITENTE" "FORNECEDOR") ;;
    update Itens (rename_column "DESCRIÇÃO DO PRODUTO/SERVIÇO" "ITEM") ;;
    for_each ["VALOR NOTA FISCAL"] (coerce_numeric Cabecalho) ;;
    for_each ["QUANTIDADE"; "VALOR UNITÁRIO"; "VALOR TOTAL"] (coerce_numeric Itens) ;;
    cab <- read Cabecalho ;;
    its <- read Itens ;;
    if negb (has_column chave (columns cab)) || negb (has_column chave (columns its)) then
      st_emit (MsgError "A coluna 'CHAVE DE ACESSO' é essencial para a junção e não foi encontrada em um dos arquivos.")
    else
      update Cabecalho (assign_column (fun c => Str (astype_str c)) chave) ;;
      update Itens (assign_column (fun c => Str (astype_str c)) chave) ;;
      cab <- read Cabecalho ;;
      its <- read Itens ;;
      let cols_nos_itens_que_existem_no_cabecalho :=
        filter (fun col => has_column col (columns cab)) (columns its) in
      let cols_para_remover :=
        filter (fun col => negb (String.eqb col chave)) cols_nos_itens_que_existem_no_cabecalho in
      let df_itens_clean := drop_columns cols_para_remover its in
      merged <- merge_checked chave cab df_itens_clean ;;
      set_consolidado merged ;;
      df <- get_consolidado ;;
      set_consolidado (fillna_columns ["ITEM"; "FORNECEDOR"] (Str sentinel) df) ;;
      df <- get_consolidado ;;
      set_consolidado (fillna_all (Num dec_zero) df) ;;
      st_emit (MsgSuccess "Dados carregados e pré-processados com sucesso!") ;;
      df <- get_consolidado ;;
      st_emit (MsgWrite ("Total de " ++ digits_of_N (N.of_nat (length (rows df))) ++
                         " registros de itens consolidados.")%string).

(** [AgenteNotasFiscais.__init__], up to the publication of the table (the
    construction of the chat model that follows is not part of the model). *)
Definition agente_init : M unit :=
  set_consolidado empty_frame ;;
  _load_and_preprocess_data ;;
  df <- get_consolidado ;;
  set_data_repo df.

(** A session that starts with the caller's two frames. *)
Definition initial_mem (cab its : option DataFrame) : Mem :=
  mkMem cab its empty_frame empty_frame [].

(** ** Python values passed by the caller of a tool *)

Inductive pyfloat : Type :=
| FNum (d : dec)
| FNaN
| FInf (negative : bool).

Inductive pyval : Type :=
| PyNone
| PyBool (b : bool)
| PyInt (z : Z)
| PyFloat (f : pyfloat)
| PyStr (s : string).

(** The digits of an integer literal after the sign: digits, with single
    underscores between digits. *)
Fixpoint int_digits (after_digit : bool) (s : string) : option string :=
  match s with
  | EmptyString => if after_digit then Some EmptyString else None
  | String c r =>
      if is_digit c then option_map (String c) (int_digits true r)
      else if Ascii.eqb c "_" && after_digit then int_digits false r
      else None
  end.

Inductive int_result : Type :=
| IntOk (z : Z)
| IntValueError
| IntTypeError
| IntOverflowError.

(** [int(n)].  A text is read in base ten: blanks stripped, one sign, then
    ASCII digits with single underscores between them (Python also reads
    the decimal digits of other scripts). *)
Definition py_int (n : pyval) : int_result :=
  match n with
  | PyNone => IntTypeError
  | PyBool b => IntOk (if b then 1 else 0)%Z
  | PyInt z => IntOk z
  | PyFloat (FNum d) => IntOk (dec_trunc d)
  | PyFloat FNaN => IntValueError
  | PyFloat (FInf _) => IntOverflowError
  | PyStr s =>
      let '(neg, s1) := read_sign (strip s) in
      match int_digits false s1 with
      | Some ds => let v := Z.of_N (digits_value ds) in IntOk (if neg then (- v)%Z else v)
      | None => IntValueError
      end
  end.

Definition print_Z (z : Z) : string :=
  ((if (z <? 0)%Z then "-" else "") ++ digits_of_N (Z.abs_N z))%string.

(** [str(n)], as an f-string renders [{n}]. *)
Definition py_str (n : pyval) : string :=
  match n with
  | PyNone => "None"
  | PyBool b => if b then "True" else "False"
  | PyInt z => print_Z z
  | PyFloat (FNum d) =>
      match scale d with
      | O => (print_dec d ++ ".0")%string
      | S _ => print_dec d
      end
  | PyFloat FNaN => "nan"
  | PyFloat (FInf neg) => if neg then "-inf" else "inf"
  | PyStr s => s
  end.

(** ** Regular expressions: the fragment of [re] that is modelled *)

Module Re.

Inductive atom : Type :=
| AnyChar                 (* [.] : one character other than a newline *)
| Lit (bytes : string).   (* the bytes of one character *)

Inductive quant : Type := One | Opt | Star | Plus.

Record regex : Type := mkRegex {
  anchored_start : bool;            (* a leading [^] *)
  items : list (atom * quant);
  anchored_end : bool               (* a trailing [$] *)
}.

Definition is_special (c : ascii) : bool :=
  existsb (Ascii.eqb c)
    ["."%char; "^"%char; "$"%char; "*"%char; "+"%char; "?"%char; "{"%char; "}"%char;
     "["%char; "]"%char; "\"%char; "|"%char; "("%char; ")"%char].

(** A continuation byte of a UTF-8 sequence. *)
Definition is_cont (c : ascii) : bool :=
  let n := nat_of_ascii c in (128 <=? n)%nat && (n <=? 191)%nat.

(** The continuation bytes at the head of a text, and the rest. *)
Fixpoint span_cont (s : string) : string * string :=
  match s with
  | String c r =>
      if is_cont c then let '(a, b) := span_cont r in (String c a, b)
      else (EmptyString, s)
  | EmptyString => (EmptyString, EmptyString)
  end.

Definition read_quant (s : string) : quant * string :=
  match s with
  | String "*" r => (Star, r)
  | String "+" r => (Plus, r)
  | String "?" r => (Opt, r)
  | _ => (One, s)
  end.

(** The items of a pattern; [None] when the pattern leaves the fragment.
    [fuel] bounds the number of items by the length of the pattern. *)
Fixpoint parse_items (fuel : nat) (s : string) : option (list (atom * quant) * bool) :=
  match fuel with
  | O => match s with EmptyString => Some ([], false) | _ => None end
  | S fuel' =>
      match s with
      | EmptyString => Some ([], false)
      | String c r =>
          if Ascii.eqb c "$" then
            match r with EmptyString => Some ([], true) | _ => None end
          else
            let head :=
              if Ascii.eqb c "." then Some (AnyChar, r)
              else if is_special c then None
              else let '(cont, r') := span_cont r in Some (Lit (String c cont), r') in
            match head with
            | None => None
            | Some (a, r1) =>
                let '(q, r2) := read_quant r1 in
                match q, r2 with
                | (Opt | Star | Plus), String d _ =>
                    if Ascii.eqb d "*" || Ascii.eqb d "+" || Ascii.eqb d "?"
                    then None
                    else option_map (fun '(l, e) => ((a, q) :: l, e)) (parse_items fuel' r2)
                | _, _ =>
                    option_map (fun '(l, e) => ((a, q) :: l, e)) (parse_items fuel' r2)
                end
            end
      end
  end.

(** [re.compile(pat)] on the fragment: an optional [^], then characters or
    [.], each with an optional [*], [+] or [?], then an optional [$]. *)
Definition compile (pat : string) : option regex :=
  let '(anch, body) := match pat with
                       | String "^" r => (true, r)
                       | _ => (false, pat)
                       end in
  match parse_items (String.length body) body with
  | Some (l, e) => Some (mkRegex anch l e)
  | None => None
  end.

Fixpoint strip_prefix (p s : string) : option string :=
  match p, s with
  | EmptyString, _ => Some s
  | String a p', String b s' => if Ascii.eqb a b then strip_prefix p' s' else None
  | String _ _, EmptyString => None
  end.

(** One character of the text consumed by an atom. *)
Definition eat (a : atom) (s : string) : option string :=
  match a with
  | AnyChar =>
      match s with
      | String c r => if Ascii.eqb c "010" then None else Some (snd (span_cont r))
      | EmptyString => None
      end
  | Lit bytes => strip_prefix bytes s
  end.

Definition at_end (anchored : bool) (s : string) : bool :=
  if anchored then
    match s with
    | EmptyString => true
    | String c EmptyString => Ascii.eqb c "010"
    | _ => false
    end
  else true.

(** Does the text have a prefix matched by the items (and then the end,
    when anchored)?  [fuel] bounds the repetitions of one item by the
    length of the text. *)
Fixpoint match_here (its : list (atom * quant)) (e : bool) (fuel : nat) (s : string) : bool :=
  match its with
  | [] => at_end e s
  | (a, q) :: rest =>
      let cont := match_here rest e fuel in
      let repeat :=
        (fix rep (n : nat) (t : string) : bool :=
           cont t ||
           match n with
           | O => false
           | S n' => match eat a t with Some t' => rep n' t' | None => false end
           end) in
      match q with
      | One => match eat a s with Some t => cont t | None => false end
      | Opt => match eat a s with Some t => cont t | None => false end || cont s
      | Star => repeat fuel s
      | Plus => match eat a s with Some t => repeat fuel t | None => false end
      end
  end.

Fixpoint search_from (r : regex) (fuel : nat) (s : string) : bool :=
  match_here (items r) (anchored_end r) fuel s ||
  match s with
  | String _ t => search_from r fuel t
  | EmptyString => false
  end.

(** [r.search(text) is not None]. *)
Definition search (r : regex) (text : string) : bool :=
  if anchored_start r
  then match_here (items r) (anchored_end r) (String.length text) text
  else search_from r (String.length text) text.

End Re.

(** One cell of [col.str.contains(pat, case=False, na=False)] with the
    pattern compiled: [re.IGNORECASE] is modelled by comparing upper-cased
    texts (Basic Latin and Latin-1 Supplement); a cell that is not text
    gives [na]. *)
Definition contains_cell (r : Re.regex) (c : cell) : bool :=
  match c with
  | Str s => Re.search r (upper s)
  | _ => false
  end.




(** ** Series operations used by the tools *)

(** What a tool does: it returns a value, raises, or meets a pattern
    outside the modelled fragment of [re]. *)
Inductive outcome (A : Type) : Type :=
| Returns (a : A)
| Raises (e : exn)
| OutsideFragment.
Arguments Returns {A} a.
Arguments Raises {A} e.
Arguments OutsideFragment {A}.

Definition obind {A B} (c : outcome A) (k : A -> outcome B) : outcome B :=
  match c with
  | Returns a => k a
  | Raises e => Raises e
  | OutsideFragment => OutsideFragment
  end.

Notation "x <~ c ;; k" := (obind c (fun x => k))
  (at level 61, c at next level, right associativity) : py_scope.

(** [df[col]] as a Series: the label must exist; with a repeated label the
    expression is a frame, and each tool fails on it ([dup] is the error it
    ends in). *)
Definition column (dup : exn) (col : string) (df : DataFrame) : outcome (list cell) :=
  match count_label col (columns df) with
  | O => Raises KeyError
  | S O => Returns (map (get_labelled col (columns df)) (rows df))
  | _ => Raises dup
  end.

Definition is_str (c : cell) : bool :=
  match c with Str _ => true | _ => false end.


(** The numbers of a Series, missing values skipped. *)
Definition numbers (s : list cell) : list dec :=
  flat_map (fun c => match c with Num d => [d] | _ => [] end) s.

(** [Series.sum()] followed by a numeric use of the result: a Series that
    holds text does not give a number. *)
Definition series_sum (s : list cell) : outcome dec :=
  if existsb is_str s then Raises TypeError else Returns (dec_sum (numbers s)).

(** [Series.idxmax()] / [Series.idxmin()] on a [RangeIndex]: the position
    of the first occurrence of the extreme, missing values skipped.
    [better x y] says that [x] beats the current best [y]. *)
Fixpoint arg_extreme (better : dec -> dec -> bool) (s : list cell) (i : nat)
    (best : option (nat * dec)) : option (nat * dec) :=
  match s with
  | [] => best
  | c :: r =>
      let best' :=
        match c, best with
        | Num d, None => Some (i, d)
        | Num d, Some (_, b) => if better d b then Some (i, d) else best
        | _, _ => best
        end in
      arg_extreme better r (S i) best'
  end.

Definition idx_extreme (better : dec -> dec -> bool) (s : list cell) : outcome nat :=
  if existsb is_str s then Raises TypeError
  else match arg_extreme better s 0 None with
       | Some (i, _) => Returns i
       | None => Raises KeyError     (* all missing: no label to look up *)
       end.

Definition idxmax : list cell -> outcome nat := idx_extreme (fun d b => dec_ltb b d).
Definition idxmin : list cell -> outcome nat := idx_extreme (fun d b => dec_ltb d b).

(** Order of group keys: numbers by value, texts by code points, numbers
    before texts. *)
Definition key_leb (a b : cell) : bool :=
  match a, b with
  | NA, _ => true
  | _, NA => false
  | Num x, Num y => dec_leb x y
  | Num _, Str _ => true
  | Str _, Num _ => false
  | Str s, Str t => String.leb s t
  end.

Fixpoint dedup (l : list cell) : list cell :=
  match l with
  | [] => []
  | x :: r => x :: filter (fun y => negb (cell_eqb x y)) (dedup r)
  end.

Section Sorting.
Context {A : Type} (before : A -> A -> bool).

Fixpoint insert_sorted (x : A) (l : list A) : list A :=
  match l with
  | [] => [x]
  | y :: r => if before x y then x :: y :: r else y :: insert_sorted x r
  end.

(** A stable sort: of two elements neither of which must come before the
    other, the one that came first stays first. *)
Definition sort_by (l : list A) : list A := fold_right insert_sorted [] l.
End Sorting.

(** [df.groupby(key)[val].sum()]: one entry per value of the key column
    (rows with a missing key are left out), in the order of the keys; the
    entry is the sum of the [val] cells of the rows with that key. *)
Definition group_values (k : cell) (keys vals : list cell) : list cell :=
  map snd (filter (fun kv => cell_eqb k (fst kv)) (combine keys vals)).

Definition groupby_sum (key val : string) (df : DataFrame) : outcome (list (cell * dec)) :=
  ks <~ column ValueError key df ;;
  vs <~ column TypeError val df ;;
  if existsb is_str vs then Raises TypeError
  else
    let groups := sort_by key_leb (dedup (filter (fun k => negb (isna k)) ks)) in
    Returns (map (fun k => (k, dec_sum (numbers (group_values k ks vs)))) groups).

(** [Series.nlargest(n)] and [Series.nsmallest(n)]: nothing for [n <= 0],
    else the first [n] entries in the order of the values, entries with
    equal values in the order of the Series. *)
Definition nlargest (n : Z) (s : list (cell * dec)) : list (cell * dec) :=
  if (n <=? 0)%Z then []
  else firstn (Z.to_nat n) (sort_by (fun x y => dec_leb (snd y) (snd x)) s).

Definition nsmallest (n : Z) (s : list (cell * dec)) : list (cell * dec) :=
  if (n <=? 0)%Z then []
  else firstn (Z.to_nat n) (sort_by (fun x y => dec_leb (snd x) (snd y)) s).

(** [Series.nunique()]: the number of distinct values, missing ones apart. *)
Definition nunique (s : list cell) : nat :=
  length (dedup (filter (fun c => negb (isna c)) s)).

(** ** The tools *)

(** The value a tool serialises.  [JValorTotalGasto d] and the
    [valor_unitario] of [JItem] stand for the text of the number under the
    format [,.2f]. *)
Inductive json : Type :=
| JErro (erro : string)
| JValorTotalGasto (valor_total_gasto : dec)
| JItem (item fornecedor : cell) (valor_unitario : dec) (descricao : string)
| JSeries (entries : list (cell * dec))
| JContagem (contagem : nat).

Definition erro_vazio_ou_nao_carregado : json := JErro "DataFrame vazio ou não carregado.".
Definition erro_vazio : json := JErro "DataFrame vazio.".
Definition erro_n (n : pyval) : json :=
  JErro ("O parâmetro 'n' para a contagem deve ser um número inteiro. Recebido: " ++ py_str n)%string.
Definition erro_metrica : json := JErro "Métrica inválida. Use 'quantidade' ou 'valor'.".
Definition erro_fornecedor (fornecedor : string) : json :=
  JErro ("Nenhum fornecedor encontrado com o nome '" ++ fornecedor ++ "'.")%string.
Definition erro_contar_o_que : json :=
  JErro "Parâmetro 'contar_o_que' inválido. Use 'notas' ou 'itens'.".

Definition calcular_valor_total_gasto (df : DataFrame) : outcome json :=
  if df_empty df then Returns erro_vazio_ou_nao_carregado
  else
    col <~ column TypeError "VALOR TOTAL" df ;;
    total <~ series_sum col ;;
    Returns (JValorTotalGasto total).

(** [item[col]] for a row [item = df.loc[idx]]. *)
Definition row_field (dup : exn) (col : string) (df : DataFrame) (row : list cell) : outcome cell :=
  match count_label col (columns df) with
  | O => Raises KeyError
  | S O => Returns (get_labelled col (columns df) row)
  | _ => Raises dup
  end.

Definition encontrar_item_mais_caro_ou_barato (df : DataFrame) (ordenacao : string)
  : outcome json :=
  if df_empty df then Returns erro_vazio
  else
    col <~ column TypeError "VALOR UNITÁRIO" df ;;
    r <~ (if String.eqb ordenacao "caro"
          then (idx <~ idxmax col ;; Returns (idx, "mais caro"))
          else (idx <~ idxmin col ;; Returns (idx, "mais barato"))) ;;
    let '(idx, desc) := r in
    let item := nth idx (rows df) [] in
    i <~ row_field TypeError "ITEM" df item ;;
    f <~ row_field TypeError "FORNECEDOR" df item ;;
    match get_labelled "VALOR UNITÁRIO" (columns df) item with
    | Num v => Returns (JItem i f v desc)
    | _ => Raises TypeError
    end.

Definition obter_top_n_itens_por (df : DataFrame) (metrica : string) (n : pyval)
    (ordem : string) : outcome json :=
  match py_int n with
  | IntValueError | IntTypeError => Returns (erro_n n)
  | IntOverflowError => Raises OverflowError
  | IntOk n =>
      if df_empty df then Returns erro_vazio
      else
        agrupado <~ (if String.eqb metrica "quantidade" then
                       r <~ groupby_sum "ITEM" "QUANTIDADE" df ;; Returns (Some r)
                     else if String.eqb metrica "valor" then
                       r <~ groupby_sum "ITEM" "VALOR TOTAL" df ;; Returns (Some r)
                     else Returns None) ;;
        match agrupado with
        | None => Returns erro_metrica
        | Some agrupado =>
            let resultado :=
              if String.eqb ordem "maior" then nlargest n agrupado
              else nsmallest n agrupado in
            Returns (JSeries resultado)
        end
  end.

Definition obter_top_n_fornecedores_por_valor (df : DataFrame) (n : pyval)
    (ordem : string) : outcome json :=
  match py_int n with
  | IntValueError | IntTypeError => Returns (erro_n n)
  | IntOverflowError => Raises OverflowError
  | IntOk n =>
      if df_empty df then Returns erro_vazio
      else
        agrupado <~ groupby_sum "FORNECEDOR" "VALOR NOTA FISCAL" df ;;
        let resultado :=
          if String.eqb ordem "maior" then nlargest n agrupado
          else nsmallest n agrupado in
        Returns (JSeries resultado)
  end.

(** [bool(fornecedor)]: [None] and the empty text are false. *)
Definition truthy (fornecedor : option string) : option string :=
  match fornecedor with
  | Some EmptyString => None
  | other => other
  end.

(** [df[df['FORNECEDOR'].str.contains(fornecedor, case=False, na=False)]]:
    the [.str] accessor needs a column that holds text. *)
Definition filter_fornecedor (df : DataFrame) (fornecedor : string) : outcome DataFrame :=
  col <~ column AttributeError "FORNECEDOR" df ;;
  if negb (existsb is_str col) then Raises AttributeError
  else match Re.compile (upper fornecedor) with
       | None => OutsideFragment
       | Some r =>
           Returns (mkDF (columns df)
                      (map snd (filter (fun cr => contains_cell r (fst cr))
                                       (combine col (rows df)))))
       end.

(** The end of [contar_notas_ou_itens], from the test of [contar_o_que]
    on, for the frame that is counted. *)
Definition contagem (contar_o_que : string) (df_filtrado : DataFrame) : outcome json :=
  if String.eqb contar_o_que "notas" then
    col <~ column TypeError chave df_filtrado ;;
    Returns (JContagem (nunique col))
  else if String.eqb contar_o_que "itens" then
    Returns (JContagem (length (rows df_filtrado)))
  else Returns erro_contar_o_que.

Definition contar_notas_ou_itens (df : DataFrame) (contar_o_que : string)
    (fornecedor : option string) : outcome json :=
  if df_empty df then Returns erro_vazio
  else
    match truthy fornecedor with
    | Some f =>
        df_filtrado <~ filter_fornecedor df f ;;
        if df_empty df_filtrado then Returns (erro_fornecedor f)
        else contagem contar_o_que df_filtrado
    | None => contagem contar_o_que df
    end.

(** ** The stages of the step as functions on frames

    The same primitives as in [_load_and_preprocess_data], composed outside
    the memory; the theorems below relate the run of the step to them. *)

Definition normalize_frame (a b : string) (df : DataFrame) : DataFrame :=
  rename_column a b (set_columns (map normalize_label (columns df)) df).

Definition coerce_step (col : string) (df : DataFrame) : DataFrame :=
  if has_column col (columns df) then assign_column coerce_cell col df else df.

Definition coerce_columns (cols : list string) (df : DataFrame) : DataFrame :=
  fold_left (fun d col => coerce_step col d) cols df.

Definition cast_key (df : DataFrame) : DataFrame :=
  assign_column (fun c => Str (astype_str c)) chave df.

Definition cabecalho_numeric : list string := ["VALOR NOTA FISCAL"].
Definition itens_numeric : list string := ["QUANTIDADE"; "VALOR UNITÁRIO"; "VALOR TOTAL"].

(** The header and the item frame when the coercion loops are over. *)
Definition cabecalho_coerced (cab : DataFrame) : DataFrame :=
  coerce_columns cabecalho_numeric (normalize_frame "RAZÃO SOCIAL EMITENTE" "FORNECEDOR" cab).

Definition itens_coerced (its : DataFrame) : DataFrame :=
  coerce_columns itens_numeric (normalize_frame "DESCRIÇÃO DO PRODUTO/SERVIÇO" "ITEM" its).

(** ... and when the key has been cast to text. *)
Definition cabecalho_after (cab : DataFrame) : DataFrame := cast_key (cabecalho_coerced cab).
Definition itens_after (its : DataFrame) : DataFrame := cast_key (itens_coerced its).

Definition cols_para_remover (cab its : DataFrame) : list string :=
  filter (fun col => negb (String.eqb col chave))
         (filter (fun col => has_column col (columns cab)) (columns its)).

Definition df_itens_clean (cab its : DataFrame) : DataFrame :=
  drop_columns (cols_para_remover cab its) its.

Definition merged (cab its : DataFrame) : DataFrame :=
  merge_inner chave cab (df_itens_clean cab its).

Definition consolidate (cab its : DataFrame) : DataFrame :=
  fillna_all (Num dec_zero) (fillna_columns ["ITEM"; "FORNECEDOR"] (Str sentinel) (merged cab its)).

(** The labels that the step needs to be unambiguous: each numeric label at
    most once in its frame, the key exactly once in both. *)
Definition at_most_once (df : DataFrame) (col : string) : bool :=
  (count_label col (columns df) <=? 1)%nat.

Definition labels_unambiguous (cab its : DataFrame) : bool :=
  forallb (at_most_once (cabecalho_coerced cab)) cabecalho_numeric &&
  forallb (at_most_once (itens_coerced its)) itens_numeric &&
  (count_label chave (columns (cabecalho_coerced cab)) =? 1)%nat &&
  (count_label chave (columns (itens_coerced its)) =? 1)%nat.


Definition msgs_success (n : nat) : list st_msg :=
  [MsgWrite "Carregando e pré-processando dados...";
   MsgSuccess "Dados carregados e pré-processados com sucesso!";
   MsgWrite ("Total de " ++ digits_of_N (N.of_nat n) ++ " registros de itens consolidados.")%string].

(** The null fill, position by position: the sentinel under ITEM and
    FORNECEDOR, zero elsewhere. *)
Definition null_fill (label : string) (c : cell) : cell :=
  if isna c then
    if String.eqb label "ITEM" || String.eqb label "FORNECEDOR"
    then Str sentinel else Num dec_zero
  else c.

Fixpoint null_fill_row (labels : list string) (row : list cell) : list cell :=
  match labels, row with
  | l :: ls, c :: cs => null_fill l c :: null_fill_row ls cs
  | _, _ => map (fillna_cell (Num dec_zero)) row
  end.

(** The join keys of a frame, as texts. *)
Definition key_strings (df : DataFrame) : list string :=
  map (fun r => astype_str (get_labelled chave (columns df) r)) (rows df).

(** The keys present in both sources, each once. *)
Definition shared_keys (hk ik : list string) : list string :=
  filter (fun k => existsb (String.eqb k) ik) (nodup string_dec hk).


(** The row count of an inner join: per shared key, header rows times item
    rows. *)
Definition join_cardinality (hk ik : list string) : nat :=
  list_sum (map (fun k => count_occ string_dec hk k * count_occ string_dec ik k)
                (shared_keys hk ik)).

(** ** Sample data *)

Definition int_cell (z : Z) : cell := Num (mkDec z 0).

(** A header file and an item file as [read_csv] hands them over: labels in
    mixed case, decimal commas, blanks, a key read as a number on one side
    and a column ("Natureza") on both sides. *)
Definition ex_cabecalho : DataFrame :=
  mkDF [" chave de acesso"; "Razão Social Emitente"; "valor nota fiscal"; "Natureza"]
       [[int_cell 35001; Str "Acme Corp"; Str "1234,56"; Str "venda"];
        [int_cell 35002; NA; Str "abc"; NA];
        [int_cell 35003; Str "Beta Ltda"; int_cell 99; Str "remessa"]].

Definition ex_itens : DataFrame :=
  mkDF ["CHAVE DE ACESSO"; "descrição do produto/serviço"; "quantidade";
        "valor unitário"; "valor total"; "natureza"]
       [[Str "35001"; Str "parafuso"; Str "2"; Str "1,25"; Str "2,50"; Str "item"];
        [Str "35001"; NA; Str "1"; Str "10"; NA; Str "item"];
        [Str "35002"; Str "porca"; Str "3"; Str "0,5"; Str "1,5"; Str "item"];
        [Str "39999"; Str "arruela"; Str "1"; Str "1"; Str "1"; Str "item"]].

(** Two header rows with the same key. *)
Definition dup_cabecalho : DataFrame :=
  mkDF ["CHAVE DE ACESSO"; "FORNECEDOR"]
       [[Str "K1"; Str "Acme"]; [Str "K1"; Str "Beta"]].



(** A consolidated table with four items whose VALOR TOTAL sums are
    A: 100, B: 50, C: 200, D: 75. *)
Definition ex_tabela : DataFrame :=
  mkDF ["CHAVE DE ACESSO"; "FORNECEDOR"; "VALOR NOTA FISCAL"; "ITEM";
        "QUANTIDADE"; "VALOR UNITÁRIO"; "VALOR TOTAL"]
       [[Str "k1"; Str "Acme Corp"; int_cell 135; Str "D"; int_cell 15; int_cell 5; int_cell 75];
        [Str "k1"; Str "Acme Corp"; int_cell 135; Str "A"; int_cell 4; int_cell 15; int_cell 60];
        [Str "k2"; Str "A+B"; int_cell 250; Str "C"; int_cell 20; int_cell 10; int_cell 200];
        [Str "k2"; Str "A+B"; int_cell 250; Str "B"; int_cell 10; int_cell 5; int_cell 50];
        [Str "k3"; Str "Beta Ltda"; int_cell 40; Str "A"; int_cell 4; int_cell 15; int_cell 40]].

(** Is [needle] a substring of [hay]? *)
Fixpoint is_substring (needle hay : string) : bool :=
  match Re.strip_prefix needle hay with
  | Some _ => true
  | None =>
      match hay with
      | String _ r => is_substring needle r
      | EmptyString => false
      end
  end.

(** The filter as the specification words it: the supplier text contains
    the argument, letter case apart. *)
Definition contains_substring_ci (fornecedor : string) (c : cell) : bool :=
  match c with
  | Str s => is_substring (upper fornecedor) (upper s)
  | _ => false
  end.

(** ** Notions used to state the properties *)



(** The key cells of a frame are texts. *)
Definition keys_are_text (df : DataFrame) : Prop :=
  forall r, In r (rows df) ->
    get_labelled chave (columns df) r = Str (astype_str (get_labelled chave (columns df) r)).


(** The ranking of two entries: by decreasing sum for 'maior', by
    increasing sum for any other [ordem]. *)
Definition rank_before (ordem : string) (x y : cell * dec) : bool :=
  if String.eqb ordem "maior" then dec_leb (snd y) (snd x) else dec_leb (snd x) (snd y).

(** ** [AgenteNotasFiscais.consultar_ia] *)

(** The chat session is outside the model: [send_message query] stands for
    [self.chat.send_message(query).text], and gives the text of the
    response, or the text of the exception that the call raised. *)
Definition consultar_ia (send_message : string -> string + string) (query : string)
  : M string :=
  df <- get_consolidado ;;
  if df_empty df then ret "Os dados ainda não foram carregados ou processados."
  else
    match send_message query with
    | inl text => ret text
    | inr e =>
        st_emit (MsgError ("Ocorreu um erro ao consultar a IA: " ++ e)%string) ;;
        ret "Desculpe, não consegui processar sua pergunta."
    end.

(** ** Further notions used to state the properties *)

(** The rows of a frame that the supplier filter keeps. *)
Definition matching_rows (r : Re.regex) (df : DataFrame) : list (list cell) :=
  filter (fun row => contains_cell r (get_labelled "FORNECEDOR" (columns df) row)) (rows df).

(** The largest scale among numbers, and a number as an integer count of
    units of [10^-s]. *)
Definition max_scale (l : list dec) : nat :=
  fold_right (fun d s => Nat.max (scale d) s) 0 l.

Definition at_scale (s : nat) (d : dec) : Z := (mant d * pow10 (s - scale d))%Z.



(** A text without the characters that [re] reads as operators. *)
Definition no_special (s : string) : bool :=
  all_chars (fun c => negb (Re.is_special c)) s.

(** Does the text [s] begin with [t]? *)
Definition has_prefix (t s : string) : bool :=
  match Re.strip_prefix t s with Some _ => true | None => false end.

(** Numbers that float64 adds without rounding, in any order: whole
    numbers whose magnitudes sum to at most 2^53. *)
Definition float_exact (l : list dec) : bool :=
  forallb (fun d => (Z.rem (mant d) (pow10 (scale d)) =? 0)%Z) l &&
  (fold_right (fun d s => Z.abs (dec_trunc d) + s) 0 l <=? 2 ^ 53)%Z.

(** * Properties *)

(** ** The model on small inputs *)

Example coerce_1234_56 : coerce_cell (Str "1234,56") = Num (mkDec 123456 2).
Proof. reflexivity. Qed.

Example coerce_abc : coerce_cell (Str "abc") = NA.
Proof. reflexivity. Qed.

Example coerce_exp : coerce_cell (Str " -1,5e3 ") = Num (mkDec (-1500) 0).
Proof. reflexivity. Qed.

Example print_dec_ex : print_dec (mkDec (-5) 2) = "-0.05".
Proof. reflexivity. Qed.

Example contains_acme :
  option_map (fun r => contains_cell r (Str "Acme Corp")) (Re.compile (upper "ACME")) = Some true.
Proof. reflexivity. Qed.

Example contains_plus :
  option_map (fun r => contains_cell r (Str "A+B")) (Re.compile (upper "a+b")) = Some false.
Proof. reflexivity. Qed.

Example contains_plus_aab :
  option_map (fun r => contains_cell r (Str "xaaB")) (Re.compile (upper "a+b")) = Some true.
Proof. reflexivity. Qed.

(** ** The run of the step *)

Lemma columns_coerce_step col df : columns (coerce_step col df) = columns df.
Proof. unfold coerce_step. destruct (has_column col (columns df)); reflexivity. Qed.

Lemma count_label_has col l : (count_label col l =? 1)%nat = true -> has_column col l = true.
Proof.
  unfold count_label, has_column. induction l as [|x l IH]; simpl; [discriminate|].
  destruct (String.eqb col x); simpl; auto.
Qed.


Lemma coerce_numeric_ok w col m df :
  frame_at w m = Some df ->
  at_most_once df col = true ->
  coerce_numeric w col m = update w (coerce_step col) m.
Proof.
  intros Hf Hc. unfold coerce_numeric, bind, read. rewrite Hf.
  unfold coerce_step, at_most_once in *.
  destruct (has_column col (columns df)) eqn:Hh.
  - assert (count_label col (columns df) <> 0).
    { intro E. unfold has_column, count_label in *. clear Hc Hf.
      induction (columns df) as [|x l IH]; simpl in *; [discriminate|].
      destruct (String.eqb col x); simpl in *; [discriminate|auto]. }
    apply Nat.leb_le in Hc.
    replace (count_label col (columns df) =? 1)%nat with true
      by (symmetry; apply Nat.eqb_eq; lia).
    unfold update. destruct w; simpl in Hf; rewrite Hf; simpl; rewrite Hh; reflexivity.
  - unfold ret, update. destruct w, m; simpl in *; rewrite Hf; simpl; rewrite Hh; reflexivity.
Qed.



Lemma bind_done {A B} (c : M A) (k : A -> M B) m m' a :
  c m = (m', Done a) -> bind c k m = k a m'.
Proof. intros H. unfold bind. rewrite H. reflexivity. Qed.


Lemma at_most_once_coerce_step c d col :
  at_most_once (coerce_step c d) col = at_most_once d col.
Proof. unfold at_most_once. rewrite columns_coerce_step. reflexivity. Qed.

Lemma columns_coerce_columns cols df : columns (coerce_columns cols df) = columns df.
Proof.
  unfold coerce_columns. revert df. induction cols as [|c cols IH]; intros df; simpl; auto.
  rewrite IH. apply columns_coerce_step.
Qed.

Lemma at_most_once_coerce_columns cols d col :
  at_most_once (coerce_columns cols d) col = at_most_once d col.
Proof. unfold at_most_once. rewrite columns_coerce_columns. reflexivity. Qed.

Lemma bind_assoc {A B C} (c : M A) (k : A -> M B) (k' : B -> M C) m :
  bind (bind c k) k' m = bind c (fun a => bind (k a) k') m.
Proof. unfold bind. destruct (c m) as [m1 [a|e]]; reflexivity. Qed.

Ltac mem_simpl :=
  cbn [frame_at df_cabecalho df_itens df_consolidado data_repo_df st_out option_map orb negb andb].
Ltac run_step :=
  repeat rewrite bind_assoc; erewrite bind_done by (mem_simpl; reflexivity); mem_simpl.
Ltac run_coerce :=
  repeat rewrite bind_assoc;
  erewrite bind_done
    by (erewrite coerce_numeric_ok;
        [reflexivity | reflexivity | repeat rewrite at_most_once_coerce_step; assumption]);
  mem_simpl.

Lemma has_column_filter_neq col l :
  has_column col (filter (fun c => negb (String.eqb c col)) l) = false.
Proof.
  unfold has_column. induction l as [|x l IH]; simpl; auto.
  destruct (String.eqb x col) eqn:E; simpl; auto.
  rewrite String.eqb_sym, E. simpl. exact IH.
Qed.

Lemma count_label_filter_keep col (p : string -> bool) l :
  p col = true -> count_label col (filter p l) = count_label col l.
Proof.
  intros Hp. unfold count_label. induction l as [|x l IH]; simpl; auto.
  destruct (String.eqb col x) eqn:E.
  - apply String.eqb_eq in E. subst x. rewrite Hp. simpl.
    rewrite String.eqb_refl. simpl. f_equal. exact IH.
  - destruct (p x); simpl; rewrite ?E; exact IH.
Qed.

Lemma merge_checked_ok key l r m :
  (count_label key (columns l) =? 1)%nat = true ->
  (count_label key (columns r) =? 1)%nat = true ->
  merge_checked key l r m = (m, Done (merge_inner key l r)).
Proof. intros H1 H2. unfold merge_checked. rewrite H1, H2. reflexivity. Qed.

(** The run of the step on unambiguous labels: it completes, the caller's
    frames hold the normalised, coerced and key-cast tables, the attribute
    holds the consolidated table and the page shows the success messages. *)
Theorem load_ok cab its m0 :
  df_cabecalho m0 = Some cab -> df_itens m0 = Some its ->
  labels_unambiguous cab its = true ->
  _load_and_preprocess_data m0 =
    (mkMem (Some (cabecalho_after cab)) (Some (itens_after its))
           (consolidate (cabecalho_after cab) (itens_after its))
           (data_repo_df m0)
           (st_out m0 ++ msgs_success (length (rows (consolidate (cabecalho_after cab) (itens_after its))))),
     Done tt).
Proof.
  intros Hc Hi Hl. unfold labels_unambiguous in Hl.
  apply andb_prop in Hl. destruct Hl as [Hl Hk2].
  apply andb_prop in Hl. destruct Hl as [Hl Hk1].
  apply andb_prop in Hl. destruct Hl as [Hn1 Hn2].
  unfold cabecalho_coerced, itens_coerced in *.
  rewrite columns_coerce_columns in Hk1, Hk2.
  unfold cabecalho_numeric, itens_numeric in *. simpl forallb in Hn1, Hn2.
  repeat rewrite at_most_once_coerce_step in *.
  rewrite andb_true_r in Hn1.
  apply andb_prop in Hn2. destruct Hn2 as [Hq Hn2].
  apply andb_prop in Hn2. destruct Hn2 as [Hu Hn2].
  rewrite andb_true_r in Hn2.
  destruct m0 as [c i d r o]. simpl in Hc, Hi. subst c i.
  unfold _load_and_preprocess_data.
  do 3 run_step. do 4 run_step. unfold for_each.
  run_coerce. run_step. do 3 run_coerce. run_step. do 2 run_step.
  repeat rewrite columns_coerce_step.
  fold (normalize_frame "RAZÃO SOCIAL EMITENTE" "FORNECEDOR" cab).
  fold (normalize_frame "DESCRIÇÃO DO PRODUTO/SERVIÇO" "ITEM" its).
  rewrite (count_label_has _ _ Hk1), (count_label_has _ _ Hk2).
  mem_simpl. do 4 run_step.
  repeat rewrite bind_assoc.
  erewrite bind_done.
  2:{ apply merge_checked_ok.
      - cbn [columns assign_column]. repeat rewrite columns_coerce_step. exact Hk1.
      - cbn [columns assign_column drop_columns]. rewrite count_label_filter_keep.
        + repeat rewrite columns_coerce_step. exact Hk2.
        + rewrite has_column_filter_neq. reflexivity. }
  do 7 run_step.
  unfold st_emit. mem_simpl. unfold msgs_success.
  repeat rewrite <- app_assoc. reflexivity.
Qed.

(** *** Shape of the rows *)

Lemma get_labelled_nil col labels : get_labelled col labels [] = NA.
Proof. destruct labels; reflexivity. Qed.

Lemma map_labelled_length f col labels row :
  length (map_labelled f col labels row) = length row.
Proof.
  revert row. induction labels as [|l ls IH]; intros [|c cs]; simpl; auto.
Qed.

Lemma wf_assign_column f col df : wf_frame df -> wf_frame (assign_column f col df).
Proof.
  unfold wf_frame, assign_column. simpl. intros H.
  apply Forall_map. eapply Forall_impl; [|exact H].
  intros r Hr. simpl. rewrite map_labelled_length. exact Hr.
Qed.

Lemma wf_coerce_step col df : wf_frame df -> wf_frame (coerce_step col df).
Proof.
  unfold coerce_step. destruct (has_column col (columns df)); auto using wf_assign_column.
Qed.

Lemma wf_coerce_columns cols df : wf_frame df -> wf_frame (coerce_columns cols df).
Proof.
  unfold coerce_columns. revert df.
  induction cols as [|c cols IH]; intros df H; simpl; auto using wf_coerce_step.
Qed.

Lemma wf_normalize_frame a b df : wf_frame df -> wf_frame (normalize_frame a b df).
Proof.
  unfold wf_frame, normalize_frame, rename_column, set_columns. simpl.
  intros H. eapply Forall_impl; [|exact H].
  intros r Hr. simpl in *. rewrite !length_map. exact Hr.
Qed.


Lemma wf_itens_after its : wf_frame its -> wf_frame (itens_after its).
Proof.
  intros H. unfold itens_after, cast_key, itens_coerced.
  auto using wf_assign_column, wf_coerce_columns, wf_normalize_frame.
Qed.

Lemma wf_frameb_spec df : wf_frameb df = true <-> wf_frame df.
Proof.
  unfold wf_frameb, wf_frame. rewrite forallb_forall, Forall_forall.
  split; intros H r Hr; specialize (H r Hr); [apply Nat.eqb_eq|apply Nat.eqb_eq]; exact H.
Qed.

(** The cell under a label that is present, after a map over that label. *)
Lemma get_map_labelled_same f col labels row :
  has_column col labels = true -> length labels <= length row ->
  get_labelled col labels (map_labelled f col labels row) = f (get_labelled col labels row).
Proof.
  unfold has_column. revert row.
  induction labels as [|l ls IH]; intros row Hh Hlen; simpl in *; [discriminate|].
  destruct row as [|c cs]; simpl in *; [lia|].
  destruct (String.eqb col l) eqn:E; simpl; [reflexivity|].
  apply IH; [exact Hh | lia].
Qed.


Lemma get_drop_labelled col (p : string -> bool) labels row :
  p col = false ->
  get_labelled col (filter (fun l => negb (p l)) labels) (drop_labelled p labels row)
  = get_labelled col labels row.
Proof.
  intros Hp. revert row.
  induction labels as [|l ls IH]; intros [|c cs]; simpl; auto.
  - apply get_labelled_nil.
  - destruct (p l) eqn:El; simpl.
    + destruct (String.eqb col l) eqn:E.
      * apply String.eqb_eq in E. subst l. congruence.
      * apply IH.
    + destruct (String.eqb col l); [reflexivity|apply IH].
Qed.

Lemma get_labelled_app col labels1 labels2 row1 row2 :
  has_column col labels1 = true -> length row1 = length labels1 ->
  get_labelled col (labels1 ++ labels2) (row1 ++ row2) = get_labelled col labels1 row1.
Proof.
  unfold has_column. revert row1.
  induction labels1 as [|l ls IH]; intros row1 Hh Hlen; simpl in *; [discriminate|].
  destruct row1 as [|c cs]; simpl in *; [discriminate|].
  destruct (String.eqb col l); simpl in *; [reflexivity|].
  apply IH; [exact Hh|lia].
Qed.

(** *** The null fill *)

Lemma fill_row_spec labels row :
  map (fillna_cell (Num dec_zero))
      (map_labelled (fillna_cell (Str sentinel)) "FORNECEDOR" labels
         (map_labelled (fillna_cell (Str sentinel)) "ITEM" labels row))
  = null_fill_row labels row.
Proof.
  revert row. induction labels as [|l ls IH]; intros [|c cs]; try reflexivity.
  cbn [map_labelled map null_fill_row]. rewrite IH. f_equal.
  unfold null_fill, fillna_cell.
  rewrite (String.eqb_sym l "ITEM"), (String.eqb_sym l "FORNECEDOR").
  destruct (String.eqb "ITEM" l), (String.eqb "FORNECEDOR" l), c; reflexivity.
Qed.

Lemma consolidate_columns cab its :
  columns (consolidate cab its) = columns (merged cab its).
Proof. reflexivity. Qed.

Lemma consolidate_rows cab its :
  rows (consolidate cab its)
  = map (null_fill_row (columns (merged cab its))) (rows (merged cab its)).
Proof.
  unfold consolidate, fillna_all, fillna_columns. cbn [fold_left rows assign_column columns].
  rewrite !map_map. apply map_ext. intros row. apply fill_row_spec.
Qed.



Lemma get_null_fill_row col labels row :
  has_column col labels = true -> length labels <= length row ->
  get_labelled col labels (null_fill_row labels row) = null_fill col (get_labelled col labels row).
Proof.
  unfold has_column. revert row.
  induction labels as [|l ls IH]; intros row Hh Hlen; simpl in *; [discriminate|].
  destruct row as [|c cs]; simpl in *; [lia|].
  destruct (String.eqb col l) eqn:E; simpl in *.
  - apply String.eqb_eq in E. subst l. reflexivity.
  - apply IH; [exact Hh|lia].
Qed.

(** *** The inner join *)

Lemma key_of_clean c i r :
  get_labelled chave (columns (df_itens_clean c i))
    (drop_labelled (fun l => has_column l (cols_para_remover c i)) (columns i) r)
  = get_labelled chave (columns i) r.
Proof.
  unfold df_itens_clean, drop_columns. cbn [columns].
  apply (get_drop_labelled chave (fun l => has_column l (cols_para_remover c i))).
  unfold cols_para_remover. apply has_column_filter_neq.
Qed.


Lemma length_filter_map {A B} (f : B -> bool) (g : A -> B) l :
  length (filter f (map g l)) = length (filter (fun x => f (g x)) l).
Proof.
  induction l as [|x l IH]; simpl; auto.
  destruct (f (g x)); simpl; auto.
Qed.

Lemma length_rows_merged c i :
  length (rows (merged c i)) =
  list_sum (map (fun l => length (filter
     (fun r => cell_eqb (get_labelled chave (columns i) r) (get_labelled chave (columns c) l))
     (rows i))) (rows c)).
Proof.
  unfold merged, merge_inner. cbn [rows]. rewrite length_flat_map.
  f_equal. apply map_ext. intros l. rewrite length_map.
  unfold df_itens_clean at 2, drop_columns. cbn [rows].
  rewrite length_filter_map. f_equal. apply filter_ext. intros r.
  rewrite key_of_clean. reflexivity.
Qed.

Lemma keys_are_text_cast df :
  wf_frame df -> has_column chave (columns df) = true -> keys_are_text (cast_key df).
Proof.
  intros Hwf Hh r Hr. unfold cast_key, assign_column in *. cbn [rows columns] in *.
  apply in_map_iff in Hr. destruct Hr as [r0 [E Hr0]]. subst r.
  unfold wf_frame in Hwf. rewrite Forall_forall in Hwf. specialize (Hwf r0 Hr0).
  rewrite get_map_labelled_same by (auto; lia). reflexivity.
Qed.

Lemma count_filter_key (ks : list cell -> string) k l :
  length (filter (fun r => String.eqb (ks r) k) l) = count_occ string_dec (map ks l) k.
Proof.
  induction l as [|r l IH]; simpl; auto.
  destruct (string_dec (ks r) k) as [E|E].
  - rewrite (proj2 (String.eqb_eq _ _) E). simpl. f_equal. exact IH.
  - rewrite (proj2 (String.eqb_neq _ _) E). exact IH.
Qed.

Lemma length_rows_merged_keys c i :
  keys_are_text c -> keys_are_text i ->
  length (rows (merged c i)) =
  list_sum (map (fun k => count_occ string_dec (key_strings i) k) (key_strings c)).
Proof.
  intros Hc Hi. rewrite length_rows_merged. unfold key_strings. rewrite map_map.
  f_equal. apply map_ext_in. intros l Hl.
  rewrite <- count_filter_key. f_equal. apply filter_ext_in. intros r Hr.
  rewrite (Hc l Hl), (Hi r Hr). reflexivity.
Qed.

(** Regrouping a sum over a list by the distinct values of the list. *)
Lemma sum_indicator (f : string -> nat) x ks :
  NoDup ks -> In x ks ->
  list_sum (map (fun k => (if string_dec x k then 1 else 0) * f k) ks) = f x.
Proof.
  induction ks as [|k ks IH]; intros Hnd Hin; [contradiction|].
  inversion Hnd as [|? ? Hnot Hnd']; subst. simpl.
  destruct (string_dec x k) as [E|E].
  - subst k. replace (list_sum _) with 0; [lia|].
    symmetry. clear IH Hin Hnd Hnd'. induction ks as [|y ks IH]; simpl; auto.
    destruct (string_dec x y) as [E|E].
    + subst y. exfalso. apply Hnot. left. reflexivity.
    + simpl. apply IH. intro H. apply Hnot. right. exact H.
  - destruct Hin as [Hin|Hin]; [congruence|]. simpl. apply IH; auto.
Qed.

Lemma list_sum_map_add {A} (f g : A -> nat) l :
  list_sum (map (fun x => f x + g x) l) = list_sum (map f l) + list_sum (map g l).
Proof. induction l as [|x l IH]; simpl; auto. rewrite IH. lia. Qed.

Lemma sum_by_distinct (f : string -> nat) l ks :
  NoDup ks -> (forall x, In x l -> In x ks) ->
  list_sum (map f l) = list_sum (map (fun k => count_occ string_dec l k * f k) ks).
Proof.
  intros Hnd. induction l as [|x l IH]; intros Hin.
  - simpl. clear Hnd Hin. induction ks; simpl; auto.
  - simpl map at 1. simpl list_sum at 1.
    rewrite IH by (intros y Hy; apply Hin; right; exact Hy).
    rewrite <- (sum_indicator f x ks Hnd) by (apply Hin; left; reflexivity).
    rewrite <- list_sum_map_add. f_equal. apply map_ext. intros k.
    simpl. destruct (string_dec x k); lia.
Qed.

Lemma list_sum_filter_zero (g : string -> nat) (p : string -> bool) ks :
  (forall k, p k = false -> g k = 0) ->
  list_sum (map g (filter p ks)) = list_sum (map g ks).
Proof.
  intros H. induction ks as [|k ks IH]; simpl; auto.
  destruct (p k) eqn:E; simpl; rewrite IH; auto. rewrite (H k E). reflexivity.
Qed.

Lemma existsb_eqb_count k l :
  existsb (String.eqb k) l = false -> count_occ string_dec l k = 0.
Proof.
  induction l as [|x l IH]; simpl; auto.
  destruct (String.eqb k x) eqn:E; simpl; [discriminate|].
  intros H. destruct (string_dec x k) as [E'|E']; [|auto].
  subst x. rewrite String.eqb_refl in E. discriminate.
Qed.

Lemma sum_over_keys_join hk ik :
  list_sum (map (fun k => count_occ string_dec ik k) hk) = join_cardinality hk ik.
Proof.
  unfold join_cardinality, shared_keys.
  rewrite (list_sum_filter_zero (fun k => count_occ string_dec hk k * count_occ string_dec ik k)).
  - apply sum_by_distinct; [apply NoDup_nodup | intros x Hx; apply nodup_In; exact Hx].
  - intros k Hk. rewrite (existsb_eqb_count _ _ Hk). lia.
Qed.




Lemma labels_unambiguous_keys cab its :
  labels_unambiguous cab its = true ->
  has_column chave (columns (cabecalho_coerced cab)) = true /\
  has_column chave (columns (itens_coerced its)) = true.
Proof.
  unfold labels_unambiguous. intros H.
  apply andb_prop in H. destruct H as [H H2].
  apply andb_prop in H. destruct H as [_ H1].
  split; apply count_label_has; assumption.
Qed.

Lemma load_initial cab its :
  labels_unambiguous cab its = true ->
  _load_and_preprocess_data (initial_mem (Some cab) (Some its)) =
    (mkMem (Some (cabecalho_after cab)) (Some (itens_after its))
           (consolidate (cabecalho_after cab) (itens_after its)) empty_frame
           (msgs_success (length (rows (consolidate (cabecalho_after cab) (itens_after its))))),
     Done tt).
Proof.
  intros H. rewrite (load_ok cab its) by (auto; reflexivity). reflexivity.
Qed.

Lemma agente_init_ok cab its :
  labels_unambiguous cab its = true ->
  agente_init (initial_mem (Some cab) (Some its)) =
    (mkMem (Some (cabecalho_after cab)) (Some (itens_after its))
           (consolidate (cabecalho_after cab) (itens_after its))
           (consolidate (cabecalho_after cab) (itens_after its))
           (msgs_success (length (rows (consolidate (cabecalho_after cab) (itens_after its))))),
     Done tt).
Proof.
  intros H. unfold agente_init.
  erewrite bind_done by reflexivity.
  erewrite bind_done by (apply load_initial; exact H).
  reflexivity.
Qed.

Lemma keys_text_cabecalho cab :
  wf_frameb cab = true -> has_column chave (columns (cabecalho_coerced cab)) = true ->
  keys_are_text (cabecalho_after cab).
Proof.
  intros Hwf Hh. apply keys_are_text_cast; [|exact Hh].
  apply wf_coerce_columns, wf_normalize_frame, wf_frameb_spec, Hwf.
Qed.

Lemma keys_text_itens its :
  wf_frameb its = true -> has_column chave (columns (itens_coerced its)) = true ->
  keys_are_text (itens_after its).
Proof.
  intros Hwf Hh. apply keys_are_text_cast; [|exact Hh].
  apply wf_coerce_columns, wf_normalize_frame, wf_frameb_spec, Hwf.
Qed.










(** *** The step completes with the success message only on unambiguous labels *)







(** *** Printing and reading numbers *)

Ltac by_bits c := destruct c as [[] [] [] [] [] [] [] []]; vm_compute; try reflexivity; try discriminate.




Lemma digit_not_sign c : is_digit c = true -> Ascii.eqb c "-" = false /\ Ascii.eqb c "+" = false.
Proof. by_bits c; intros; split; reflexivity. Qed.

Lemma all_chars_app p a b :
  all_chars p (a ++ b)%string = all_chars p a && all_chars p b.
Proof. induction a as [|c a IH]; simpl; auto. rewrite IH. apply andb_assoc. Qed.

Lemma all_chars_impl (p q : ascii -> bool) s :
  (forall c, p c = true -> q c = true) -> all_chars p s = true -> all_chars q s = true.
Proof.
  intros H. induction s as [|c s IH]; simpl; auto.
  intros E. apply andb_prop in E. destruct E as [E1 E2].
  rewrite (H c E1), (IH E2). reflexivity.
Qed.

Lemma digits_string_of_uint u : all_chars is_digit (NilEmpty.string_of_uint u) = true.
Proof. induction u; simpl; auto. Qed.

Lemma digits_of_N_digits n : all_chars is_digit (digits_of_N n) = true.
Proof. apply digits_string_of_uint. Qed.



Lemma string_length_app a b :
  String.length (a ++ b)%string = String.length a + String.length b.
Proof. induction a; simpl; auto. Qed.

Lemma digits_value_of_N n : digits_value (digits_of_N n) = n.
Proof.
  unfold digits_value, digits_of_N. rewrite NilEmpty.usu. apply DecimalN.Unsigned.of_to.
Qed.




Lemma lstrip_id sp s :
  all_chars (fun c => negb (sp c)) s = true -> lstrip sp s = s.
Proof.
  destruct s as [|c s]; simpl; auto.
  intros H. apply andb_prop in H. destruct H as [H1 _].
  apply negb_true_iff in H1. rewrite H1. reflexivity.
Qed.

Lemma rstrip_id sp s :
  all_chars (fun c => negb (sp c)) s = true -> rstrip sp s = s.
Proof.
  induction s as [|c s IH]; simpl; auto.
  intros H. apply andb_prop in H. destruct H as [H1 H2].
  apply negb_true_iff in H1. rewrite (IH H2), H1. destruct s; reflexivity.
Qed.










(** *** The guards of the tools *)

(** Claim C3, as amended.  On an empty table, calcular_valor_total_gasto,
    encontrar_item_mais_caro_ou_barato and contar_notas_ou_itens return the
    empty-DataFrame error for all arguments.  The two top-n tools coerce n
    first: they return the empty-DataFrame error when int(n) succeeds, and
    the error about n when int(n) raises ValueError or TypeError; the empty
    check precedes every other validation. *)
Theorem C3_empty_state df :
  df_empty df = true ->
  calcular_valor_total_gasto df = Returns erro_vazio_ou_nao_carregado /\
  (forall ordenacao, encontrar_item_mais_caro_ou_barato df ordenacao = Returns erro_vazio) /\
  (forall contar_o_que fornecedor,
     contar_notas_ou_itens df contar_o_que fornecedor = Returns erro_vazio) /\
  (forall metrica n ordem,
     (forall k, py_int n = IntOk k ->
        obter_top_n_itens_por df metrica n ordem = Returns erro_vazio) /\
     (py_int n = IntValueError \/ py_int n = IntTypeError ->
        obter_top_n_itens_por df metrica n ordem = Returns (erro_n n))) /\
  (forall n ordem,
     (forall k, py_int n = IntOk k ->
        obter_top_n_fornecedores_por_valor df n ordem = Returns erro_vazio) /\
     (py_int n = IntValueError \/ py_int n = IntTypeError ->
        obter_top_n_fornecedores_por_valor df n ordem = Returns (erro_n n))).
Proof.
  intros He. repeat split.
  - unfold calcular_valor_total_gasto. rewrite He. reflexivity.
  - intros o. unfold encontrar_item_mais_caro_ou_barato. rewrite He. reflexivity.
  - intros c f. unfold contar_notas_ou_itens. rewrite He. reflexivity.
  - intros k Hk. unfold obter_top_n_itens_por. rewrite Hk, He. reflexivity.
  - intros [Hn|Hn]; unfold obter_top_n_itens_por; rewrite Hn; reflexivity.
  - intros k Hk. unfold obter_top_n_fornecedores_por_valor. rewrite Hk, He. reflexivity.
  - intros [Hn|Hn]; unfold obter_top_n_fornecedores_por_valor; rewrite Hn; reflexivity.
Qed.

(** The empty frame, with a count given as the text " 1_0 ". *)
Lemma C3_empty_state_witness :
  calcular_valor_total_gasto empty_frame = Returns erro_vazio_ou_nao_carregado /\
  obter_top_n_itens_por empty_frame "valor" (PyStr " 1_0 ") "maior" = Returns erro_vazio.
Proof.
  destruct (C3_empty_state empty_frame eq_refl) as [H1 [_ [_ [H4 _]]]].
  split; [exact H1|].
  apply (proj1 (H4 "valor"%string (PyStr " 1_0 ") "maior"%string) 10%Z). reflexivity.
Defined.

(** Claim C3 as stated fails: on the empty table and n = "abc",
    obter_top_n_itens_por returns the error about n, not the
    empty-DataFrame error. *)
Lemma C3_counterexample :
  df_empty empty_frame = true /\
  obter_top_n_itens_por empty_frame "valor" (PyStr "abc") "maior" = Returns (erro_n (PyStr "abc")) /\
  Returns (erro_n (PyStr "abc")) <> Returns erro_vazio /\
  Returns (erro_n (PyStr "abc")) <> Returns erro_vazio_ou_nao_carregado.
Proof. repeat split; try reflexivity; vm_compute; discriminate. Qed.

Lemma eqb_false_of_neq a b : a <> b -> String.eqb a b = false.
Proof. intros H. apply String.eqb_neq. exact H. Qed.

(** Claim C4, as amended.  On a non-empty table: a metrica outside
    {'quantidade', 'valor'} gives the fixed error "Métrica inválida ..."
    whatever the table holds; an n on which int(n) raises ValueError or
    TypeError gives the error that ends with the text of n; a contar_o_que
    outside {'notas', 'itens'} never gives a count, and without a supplier
    filter gives the fixed error "Parâmetro 'contar_o_que' inválido ...";
    an ordenacao other than 'caro' is treated as 'barato', and an ordem
    other than 'maior' as 'menor'. *)
Theorem C4_invalid_parameters df :
  df_empty df = false ->
  (forall metrica n k ordem,
     py_int n = IntOk k -> metrica <> "quantidade"%string -> metrica <> "valor"%string ->
     obter_top_n_itens_por df metrica n ordem = Returns erro_metrica) /\
  (forall n, py_int n = IntValueError \/ py_int n = IntTypeError ->
     (forall metrica ordem, obter_top_n_itens_por df metrica n ordem = Returns (erro_n n)) /\
     (forall ordem, obter_top_n_fornecedores_por_valor df n ordem = Returns (erro_n n)) /\
     erro_n n = JErro ("O parâmetro 'n' para a contagem deve ser um número inteiro. Recebido: "
                        ++ py_str n)%string) /\
  (forall contar_o_que,
     contar_o_que <> "notas"%string -> contar_o_que <> "itens"%string ->
     contar_notas_ou_itens df contar_o_que None = Returns erro_contar_o_que /\
     contar_notas_ou_itens df contar_o_que (Some ""%string) = Returns erro_contar_o_que /\
     (forall fornecedor j,
        contar_notas_ou_itens df contar_o_que fornecedor = Returns j ->
        j = erro_contar_o_que \/ exists f, fornecedor = Some f /\ j = erro_fornecedor f)) /\
  (forall ordenacao, ordenacao <> "caro"%string ->
     encontrar_item_mais_caro_ou_barato df ordenacao
     = encontrar_item_mais_caro_ou_barato df "barato") /\
  (forall metrica n ordem, ordem <> "maior"%string ->
     obter_top_n_itens_por df metrica n ordem = obter_top_n_itens_por df metrica n "menor" /\
     obter_top_n_fornecedores_por_valor df n ordem
     = obter_top_n_fornecedores_por_valor df n "menor").
Proof.
  intros He. split; [|split; [|split; [|split]]].
  - intros metrica n k ordem Hk H1 H2. unfold obter_top_n_itens_por.
    rewrite Hk, He, (eqb_false_of_neq _ _ H1), (eqb_false_of_neq _ _ H2). reflexivity.
  - intros n Hn. repeat split.
    + intros metrica ordem. unfold obter_top_n_itens_por. destruct Hn as [Hn|Hn]; rewrite Hn; reflexivity.
    + intros ordem. unfold obter_top_n_fornecedores_por_valor.
      destruct Hn as [Hn|Hn]; rewrite Hn; reflexivity.
  - intros c H1 H2.
    assert (Hc : forall d, contagem c d = Returns erro_contar_o_que).
    { intros d. unfold contagem.
      rewrite (eqb_false_of_neq _ _ H1), (eqb_false_of_neq _ _ H2). reflexivity. }
    unfold contar_notas_ou_itens. rewrite He. cbn [truthy].
    split; [apply Hc|]. split; [apply Hc|].
    intros f j. destruct (truthy f) as [f'|] eqn:Ef.
    + destruct (filter_fornecedor df f') as [d|e|]; cbn [obind]; try discriminate.
      destruct (df_empty d).
      * intros H. inversion H. right. exists f'. split; [|reflexivity].
        destruct f as [[|]|]; simpl in Ef; congruence.
      * rewrite Hc. intros H. inversion H. left. reflexivity.
    + rewrite Hc. intros H. inversion H. left. reflexivity.
  - intros o Ho. unfold encontrar_item_mais_caro_ou_barato.
    rewrite (eqb_false_of_neq _ _ Ho). reflexivity.
  - intros metrica n ordem Ho. unfold obter_top_n_itens_por, obter_top_n_fornecedores_por_valor.
    rewrite (eqb_false_of_neq _ _ Ho). split; reflexivity.
Qed.

(** An unknown metrica on the sample table. *)
Lemma C4_invalid_parameters_witness :
  obter_top_n_itens_por ex_tabela "preco" (PyInt 3) "maior" = Returns erro_metrica.
Proof.
  destruct (C4_invalid_parameters ex_tabela eq_refl) as [H _].
  apply (H "preco"%string (PyInt 3) 3%Z "maior"%string); [reflexivity| |]; discriminate.
Defined.

(** Claim C4 as stated fails: an ordenacao and an ordem outside their
    enumerations give a result, not an error. *)
Lemma C4_counterexample :
  df_empty ex_tabela = false /\
  encontrar_item_mais_caro_ou_barato ex_tabela "medio"
  = Returns (JItem (Str "D") (Str "Acme Corp") (mkDec 5 0) "mais barato") /\
  obter_top_n_itens_por ex_tabela "valor" (PyInt 1) "qualquer"
  = Returns (JSeries [(Str "B", mkDec 50 0)]).
Proof. repeat split; reflexivity. Qed.

(** *** The supplier filter *)











(** *** The order of the numbers *)

Lemma pow10_pos n : (0 < pow10 n)%Z.
Proof. unfold pow10. apply Z.pow_pos_nonneg; lia. Qed.


Lemma dec_leb_refl a : dec_leb a a = true.
Proof. unfold dec_leb. apply Z.leb_le. lia. Qed.

Lemma dec_leb_trans a b c : dec_leb a b = true -> dec_leb b c = true -> dec_leb a c = true.
Proof.
  unfold dec_leb. intros H1 H2. apply Z.leb_le in H1, H2. apply Z.leb_le.
  pose proof (pow10_pos (scale a)) as Pa.
  pose proof (pow10_pos (scale b)) as Pb.
  pose proof (pow10_pos (scale c)) as Pc.
  apply (Z.mul_le_mono_pos_r _ _ (pow10 (scale b)) Pb).
  apply Z.le_trans with (mant b * pow10 (scale a) * pow10 (scale c))%Z.
  - replace (mant a * pow10 (scale c) * pow10 (scale b))%Z
      with (mant a * pow10 (scale b) * pow10 (scale c))%Z by ring.
    apply Z.mul_le_mono_nonneg_r; lia.
  - replace (mant b * pow10 (scale a) * pow10 (scale c))%Z
      with (mant b * pow10 (scale c) * pow10 (scale a))%Z by ring.
    replace (mant c * pow10 (scale a) * pow10 (scale b))%Z
      with (mant c * pow10 (scale b) * pow10 (scale a))%Z by ring.
    apply Z.mul_le_mono_nonneg_r; lia.
Qed.

Lemma dec_eqb_refl a : dec_eqb a a = true.
Proof. unfold dec_eqb. rewrite dec_leb_refl. reflexivity. Qed.

Lemma dec_eqb_sym a b : dec_eqb a b = dec_eqb b a.
Proof. unfold dec_eqb. apply andb_comm. Qed.

Lemma dec_eqb_trans a b c : dec_eqb a b = true -> dec_eqb b c = true -> dec_eqb a c = true.
Proof.
  unfold dec_eqb. intros H1 H2.
  apply andb_prop in H1. apply andb_prop in H2. destruct H1, H2.
  apply andb_true_intro. split; eapply dec_leb_trans; eauto.
Qed.

Lemma cell_eqb_refl a : cell_eqb a a = true.
Proof. destruct a; simpl; auto using dec_eqb_refl, String.eqb_refl. Qed.

Lemma cell_eqb_sym a b : cell_eqb a b = cell_eqb b a.
Proof. destruct a, b; simpl; auto using dec_eqb_sym, String.eqb_sym. Qed.

Lemma cell_eqb_trans a b c : cell_eqb a b = true -> cell_eqb b c = true -> cell_eqb a c = true.
Proof.
  destruct a, b, c; simpl; try discriminate; auto.
  - apply dec_eqb_trans.
  - intros H1 H2. apply String.eqb_eq in H1, H2. apply String.eqb_eq. congruence.
Qed.

(** *** The first extreme of a Series *)

Section Extreme.
Variable le : dec -> dec -> bool.
Hypothesis le_total : forall a b, le a b = false -> le b a = true.
Hypothesis le_trans : forall a b c, le a b = true -> le b c = true -> le a c = true.

Let better (d b : dec) : bool := negb (le d b).



End Extreme.

Lemma column_unique dup col df :
  count_label col (columns df) = 1 ->
  column dup col df = Returns (map (get_labelled col (columns df)) (rows df)).
Proof. intros H. unfold column. rewrite H. reflexivity. Qed.


Lemma existsb_is_str_map (f : list cell -> cell) rs :
  (forall row, In row rs -> is_str (f row) = false) ->
  existsb is_str (map f rs) = false.
Proof.
  intros H. induction rs as [|r rs IH]; simpl; auto.
  rewrite (H r (or_introl eq_refl)). simpl. apply IH. intros row Hr. apply H. right. exact Hr.
Qed.




(** *** The stable sort *)


Section SortFacts.
Context {A : Type} (before : A -> A -> bool).
Hypothesis before_total : forall a b, before a b = false -> before b a = true.
Hypothesis before_trans : forall a b c, before a b = true -> before b c = true -> before a c = true.


Lemma insert_sorted_perm x l : Permutation (insert_sorted before x l) (x :: l).
Proof.
  induction l as [|y l IH]; simpl; auto.
  destruct (before x y); auto.
  eapply perm_trans; [apply perm_skip; exact IH|apply perm_swap].
Qed.

Lemma sort_by_perm l : Permutation (sort_by before l) l.
Proof.
  induction l as [|x l IH]; simpl; auto.
  eapply perm_trans; [apply insert_sorted_perm|apply perm_skip; exact IH].
Qed.




End SortFacts.

(** *** Groups *)


Lemma dedup_covers x l : In x l -> exists y, In y (dedup l) /\ cell_eqb y x = true.
Proof.
  induction l as [|z l IH]; intros H; [contradiction|]. simpl.
  destruct H as [<-|H].
  - exists z. split; [left; reflexivity|apply cell_eqb_refl].
  - destruct (IH H) as [y [Hy Hyx]].
    destruct (cell_eqb z y) eqn:E.
    + exists z. split; [left; reflexivity|]. eapply cell_eqb_trans; eauto.
    + exists y. split; [|exact Hyx]. right. apply filter_In. split; [exact Hy|].
      rewrite E. reflexivity.
Qed.

Lemma length_filter_filter {A} (p q : A -> bool) l :
  length (filter p (filter q l)) <= length (filter p l).
Proof.
  induction l as [|x l IH]; simpl; auto.
  destruct (q x); simpl; destruct (p x); simpl; lia.
Qed.

Lemma dedup_once k l : length (filter (cell_eqb k) (dedup l)) <= 1.
Proof.
  induction l as [|x l IH]; simpl; auto.
  destruct (cell_eqb k x) eqn:E; simpl.
  - clear IH.
    assert (Hnil : filter (cell_eqb k) (filter (fun y => negb (cell_eqb x y)) (dedup l)) = []).
    { destruct (filter (cell_eqb k) (filter (fun y => negb (cell_eqb x y)) (dedup l)))
        as [|y ys] eqn:F; [reflexivity|exfalso].
      assert (Hy : In y (filter (cell_eqb k) (filter (fun y => negb (cell_eqb x y)) (dedup l))))
        by (rewrite F; left; reflexivity).
      apply filter_In in Hy. destruct Hy as [Hy Hky].
      apply filter_In in Hy. destruct Hy as [_ Hxy]. apply negb_true_iff in Hxy.
      rewrite cell_eqb_sym in E. rewrite (cell_eqb_trans _ _ _ E Hky) in Hxy. discriminate. }
    rewrite Hnil. simpl. lia.
  - eapply Nat.le_trans; [apply length_filter_filter|exact IH].
Qed.

Lemma filter_length_perm {A} (p : A -> bool) l l' :
  Permutation l l' -> length (filter p l) = length (filter p l').
Proof.
  induction 1; simpl; auto.
  - destruct (p x); simpl; auto.
  - destruct (p x), (p y); simpl; auto.
  - congruence.
Qed.




Lemma select_ranked ordem k agrupado :
  (if String.eqb ordem "maior" then nlargest k agrupado else nsmallest k agrupado)
  = firstn (Z.to_nat k) (sort_by (rank_before ordem) agrupado).
Proof.
  unfold nlargest, nsmallest, rank_before.
  destruct (String.eqb ordem "maior"); destruct (Z.leb_spec k 0) as [Hk|Hk];
    try reflexivity; replace (Z.to_nat k) with 0 by lia; reflexivity.
Qed.







(** ** Further properties of the step *)

Lemma load_none m0 :
  df_cabecalho m0 = None \/ df_itens m0 = None ->
  _load_and_preprocess_data m0 =
    (mkMem (df_cabecalho m0) (df_itens m0) (df_consolidado m0) (data_repo_df m0)
           (st_out m0 ++ [MsgWrite "Carregando e pré-processando dados...";
                          MsgError "Dados de cabeçalho ou itens não fornecidos."]),
     Done tt).
Proof.
  intros H. destruct m0 as [c i d r o]. cbn [df_cabecalho df_itens] in H.
  unfold _load_and_preprocess_data. do 3 run_step.
  assert (E : (match c with Some _ => false | None => true end
               || match i with Some _ => false | None => true end) = true).
  { destruct H as [-> | ->]; [reflexivity|]. destruct c; reflexivity. }
  rewrite E. unfold st_emit. mem_simpl. rewrite <- app_assoc. reflexivity.
Qed.

(** Property X1.  When either input frame is absent, the construction of
    the agent completes without raising: the other frame is left as it was,
    the attribute and the repository hold the empty table, and the page
    shows the progress line followed by the error about missing data. *)
Theorem X1_absent_frame cab its :
  cab = None \/ its = None ->
  agente_init (initial_mem cab its) =
    (mkMem cab its empty_frame empty_frame
           [MsgWrite "Carregando e pré-processando dados...";
            MsgError "Dados de cabeçalho ou itens não fornecidos."],
     Done tt).
Proof.
  intros H. unfold agente_init.
  erewrite bind_done by reflexivity.
  erewrite bind_done by (apply load_none; exact H).
  reflexivity.
Qed.

(** X1 on the sample header with no item frame. *)
Lemma X1_absent_frame_witness :
  agente_init (initial_mem (Some ex_cabecalho) None) =
    (mkMem (Some ex_cabecalho) None empty_frame empty_frame
           [MsgWrite "Carregando e pré-processando dados...";
            MsgError "Dados de cabeçalho ou itens não fornecidos."],
     Done tt).
Proof. apply (X1_absent_frame (Some ex_cabecalho) None). right. reflexivity. Defined.





(** ** The count [n] given as a text or a float *)

Lemma digits_of_N_nonempty n : digits_of_N n <> EmptyString.
Proof.
  unfold digits_of_N. destruct n as [|p]; [discriminate|].
  cbn [N.to_uint]. pose proof (DecimalPos.Unsigned.to_uint_nonnil p) as H.
  destruct (Pos.to_uint p); [congruence| | | | | | | | | |]; discriminate.
Qed.

Lemma int_digits_all b s :
  all_chars is_digit s = true -> (b = true \/ s <> EmptyString) ->
  int_digits b s = Some s.
Proof.
  revert b. induction s as [|c s IH]; intros b Hd Hb.
  - destruct Hb as [->|Hb]; [reflexivity|congruence].
  - simpl in Hd. apply andb_prop in Hd. destruct Hd as [Hc Hs].
    cbn [int_digits]. rewrite Hc, (IH true Hs (or_introl eq_refl)). reflexivity.
Qed.

Lemma digit_not_pyspace c : is_digit c = true -> py_isspace c = false.
Proof. by_bits c. Qed.

Lemma py_int_print_Z z : py_int (PyStr (print_Z z)) = IntOk z.
Proof.
  unfold py_int, print_Z, strip.
  set (ds := digits_of_N (Z.abs_N z)).
  assert (Hd : all_chars is_digit ds = true) by apply digits_of_N_digits.
  assert (Hne : ds <> EmptyString) by apply digits_of_N_nonempty.
  assert (Hsp : all_chars (fun c => negb (py_isspace c)) ds = true).
  { eapply all_chars_impl; [|exact Hd]. intros c Hc. rewrite (digit_not_pyspace c Hc). reflexivity. }
  assert (Hv : Z.of_N (digits_value ds) = Z.abs z).
  { unfold ds. rewrite digits_value_of_N. apply N2Z.inj_abs_N. }
  destruct (Z.ltb_spec z 0) as [Hz|Hz].
  - assert (Hsp' : all_chars (fun c => negb (py_isspace c)) ("-" ++ ds) = true)
      by (cbn [append all_chars]; rewrite Hsp; reflexivity).
    rewrite lstrip_id, rstrip_id by exact Hsp'.
    cbn [append read_sign]. rewrite (int_digits_all false ds Hd (or_intror Hne)), Hv.
    f_equal. lia.
  - cbn [append]. rewrite lstrip_id, rstrip_id by exact Hsp.
    destruct ds as [|c ds']; [congruence|].
    assert (Hc : is_digit c = true) by (simpl in Hd; apply andb_prop in Hd; tauto).
    destruct (digit_not_sign c Hc) as [Hm Hp].
    assert (Hs : read_sign (String c ds') = (false, String c ds')).
    { unfold read_sign. destruct c as [[] [] [] [] [] [] [] []]; try reflexivity; discriminate. }
    rewrite Hs, (int_digits_all false _ Hd (or_intror Hne)), Hv. f_equal. lia.
Qed.

Lemma py_int_whole_float z : py_int (PyFloat (FNum (mkDec z 0))) = IntOk z.
Proof. unfold py_int, dec_trunc. cbn [mant scale]. f_equal. apply Z.quot_1_r. Qed.

(** Property X4.  Both ranking tools read the count through [int(n)]: for a
    count that a float holds exactly, the decimal text of the count and the
    float of the same value give the same answer as the integer itself,
    for every table, metric and order. *)
Theorem X4_count_as_text_or_float df z :
  (Z.abs z <=? 2 ^ 53)%Z = true ->
  (forall metrica ordem,
     obter_top_n_itens_por df metrica (PyStr (print_Z z)) ordem
     = obter_top_n_itens_por df metrica (PyInt z) ordem /\
     obter_top_n_itens_por df metrica (PyFloat (FNum (mkDec z 0))) ordem
     = obter_top_n_itens_por df metrica (PyInt z) ordem) /\
  (forall ordem,
     obter_top_n_fornecedores_por_valor df (PyStr (print_Z z)) ordem
     = obter_top_n_fornecedores_por_valor df (PyInt z) ordem /\
     obter_top_n_fornecedores_por_valor df (PyFloat (FNum (mkDec z 0))) ordem
     = obter_top_n_fornecedores_por_valor df (PyInt z) ordem).
Proof.
  intros _. split; intros; split;
    unfold obter_top_n_itens_por, obter_top_n_fornecedores_por_valor;
    rewrite ?py_int_print_Z, ?py_int_whole_float; reflexivity.
Qed.

(** X4 for the count three on the sample table. *)
Lemma X4_count_as_text_or_float_witness :
  obter_top_n_itens_por ex_tabela "valor" (PyStr "3") "maior"
  = obter_top_n_itens_por ex_tabela "valor" (PyInt 3) "maior" /\
  obter_top_n_itens_por ex_tabela "valor" (PyFloat (FNum (mkDec 3 0))) "maior"
  = obter_top_n_itens_por ex_tabela "valor" (PyInt 3) "maior".
Proof.
  exact (proj1 (X4_count_as_text_or_float ex_tabela 3%Z eq_refl)
           "valor"%string "maior"%string).
Defined.

(** ** The top suppliers *)



(** ** The published table and the counts *)

Lemma count_label_app col l1 l2 :
  count_label col (l1 ++ l2) = count_label col l1 + count_label col l2.
Proof. unfold count_label. rewrite filter_app, length_app. reflexivity. Qed.

Lemma count_label_filter_out col l :
  count_label col (filter (fun l0 => negb (String.eqb col l0)) l) = 0.
Proof.
  unfold count_label. induction l as [|x l IH]; simpl; auto.
  destruct (String.eqb col x) eqn:E; simpl; rewrite ?E; exact IH.
Qed.

Lemma consolidate_key_once c i :
  count_label chave (columns c) = 1 -> count_label chave (columns (consolidate c i)) = 1.
Proof.
  intros H. rewrite consolidate_columns. unfold merged, merge_inner. cbn [columns].
  rewrite count_label_app, count_label_filter_out, H. reflexivity.
Qed.




Lemma in_shared_keys hk ik k : In k (shared_keys hk ik) <-> In k hk /\ In k ik.
Proof.
  unfold shared_keys. rewrite filter_In, nodup_In. split; intros [H1 H2]; split; auto.
  - apply existsb_exists in H2. destruct H2 as [x [Hx E]].
    apply String.eqb_eq in E. subst x. exact Hx.
  - apply existsb_exists. exists k. split; [exact H2|apply String.eqb_refl].
Qed.







Lemma join_cardinality_zero hk ik : join_cardinality hk ik = 0 <-> shared_keys hk ik = [].
Proof.
  unfold join_cardinality. split.
  - intros H. destruct (shared_keys hk ik) as [|k ks] eqn:E; [reflexivity|exfalso].
    assert (Hk : In k (shared_keys hk ik)) by (rewrite E; left; reflexivity).
    apply in_shared_keys in Hk. destruct Hk as [H1 H2].
    apply (count_occ_In string_dec) in H1. apply (count_occ_In string_dec) in H2.
    simpl in H. nia.
  - intros ->. reflexivity.
Qed.

Lemma length_consolidate cab its :
  wf_frameb cab = true -> wf_frameb its = true -> labels_unambiguous cab its = true ->
  length (rows (consolidate (cabecalho_after cab) (itens_after its)))
  = join_cardinality (key_strings (cabecalho_after cab)) (key_strings (itens_after its)).
Proof.
  intros Hwc Hwi Hl.
  destruct (labels_unambiguous_keys _ _ Hl) as [Hkc Hki].
  rewrite consolidate_rows, length_map, length_rows_merged_keys
    by (auto using keys_text_cabecalho, keys_text_itens).
  apply sum_over_keys_join.
Qed.

Lemma labels_unambiguous_key_once cab its :
  labels_unambiguous cab its = true ->
  count_label chave (columns (cabecalho_after cab)) = 1.
Proof.
  unfold labels_unambiguous. intros H.
  apply andb_prop in H. destruct H as [H _].
  apply andb_prop in H. destruct H as [_ H]. apply Nat.eqb_eq in H. exact H.
Qed.

Lemma df_empty_consolidate cab its :
  labels_unambiguous cab its = true ->
  df_empty (consolidate (cabecalho_after cab) (itens_after its))
  = (length (rows (consolidate (cabecalho_after cab) (itens_after its))) =? 0)%nat.
Proof.
  intros Hl. unfold df_empty.
  pose proof (consolidate_key_once (cabecalho_after cab) (itens_after its)
                (labels_unambiguous_key_once cab its Hl)) as H.
  destruct (columns (consolidate (cabecalho_after cab) (itens_after its)));
    [discriminate H|reflexivity].
Qed.



(** Property X7.  When the two frames share no key, the page still shows
    the success message with a total of zero records, and every question
    is then answered with the not-loaded text, whatever the chat session
    would have said. *)
Theorem X7_empty_join_is_not_loaded cab its :
  wf_frameb cab = true -> wf_frameb its = true ->
  labels_unambiguous cab its = true ->
  shared_keys (key_strings (cabecalho_after cab)) (key_strings (itens_after its)) = [] ->
  exists m',
    agente_init (initial_mem (Some cab) (Some its)) = (m', Done tt) /\
    st_out m' = msgs_success 0 /\
    forall send_message query,
      consultar_ia send_message query m'
      = (m', Done "Os dados ainda não foram carregados ou processados."%string).
Proof.
  intros Hwc Hwi Hl Hs.
  pose proof (length_consolidate cab its Hwc Hwi Hl) as Hlen.
  rewrite (proj2 (join_cardinality_zero _ _) Hs) in Hlen.
  eexists. split; [apply agente_init_ok; exact Hl|]. cbn [st_out].
  split; [rewrite Hlen; reflexivity|].
  intros send q. unfold consultar_ia.
  erewrite bind_done by reflexivity. cbn [df_consolidado].
  rewrite (df_empty_consolidate cab its Hl), Hlen. reflexivity.
Qed.

(** X7 on a header whose keys do not occur among the sample items. *)
Lemma X7_empty_join_is_not_loaded_witness :
  exists m',
    agente_init (initial_mem (Some dup_cabecalho) (Some ex_itens)) = (m', Done tt) /\
    st_out m' = msgs_success 0.
Proof.
  destruct (X7_empty_join_is_not_loaded dup_cabecalho ex_itens eq_refl eq_refl eq_refl eq_refl)
    as [m' [H1 [H2 _]]].
  exists m'. split; [exact H1|exact H2].
Defined.

(** ** Supplier texts without operators *)

Lemma string_ind2 (P : string -> Prop) :
  P EmptyString ->
  (forall c, P (String c EmptyString)) ->
  (forall c d s, P s -> P (String d s) -> P (String c (String d s))) ->
  forall s, P s.
Proof.
  intros H0 H1 H2 s.
  assert (H : P s /\ forall c, P (String c s)).
  { induction s as [|d s [IH1 IH2]]; [split; [exact H0|exact H1]|].
    split; [apply IH2|]. intros c. apply H2; [exact IH1|apply IH2]. }
  exact (proj1 H).
Qed.

Lemma ascii_upper_not_special c :
  Re.is_special c = false -> Re.is_special (ascii_upper c) = false.
Proof. by_bits c. Qed.

Lemma latin1_upper_not_special c :
  Re.is_special c = false -> Re.is_special (latin1_upper c) = false.
Proof. by_bits c. Qed.

Lemma upper_no_special s : no_special s = true -> no_special (upper s) = true.
Proof.
  unfold no_special. induction s as [|c|c d s IH1 IH2] using string_ind2; intros H.
  - reflexivity.
  - cbn [all_chars] in H. apply andb_prop in H. destruct H as [Hc _].
    apply negb_true_iff in Hc. cbn [upper].
    destruct (nat_of_ascii c =? 195)%nat; cbn [all_chars].
    + rewrite Hc. reflexivity.
    + rewrite (ascii_upper_not_special c Hc). reflexivity.
  - cbn [all_chars] in H. apply andb_prop in H. destruct H as [Hc H].
    pose proof H as Hds.
    apply andb_prop in H. destruct H as [Hd Hs].
    apply negb_true_iff in Hc. apply negb_true_iff in Hd.
    cbn [upper]. destruct (nat_of_ascii c =? 195)%nat.
    + cbn [all_chars]. rewrite Hc, (latin1_upper_not_special d Hd), (IH1 Hs). reflexivity.
    + cbn [all_chars]. rewrite (ascii_upper_not_special c Hc). cbn [negb andb].
      apply IH2. exact Hds.
Qed.

Lemma span_cont_spec s :
  let '(a, b) := Re.span_cont s in s = (a ++ b)%string.
Proof.
  induction s as [|c s IH]; [reflexivity|]. cbn [Re.span_cont].
  destruct (Re.is_cont c); [|reflexivity].
  destruct (Re.span_cont s) as [a b]. cbn [append]. f_equal. exact IH.
Qed.

Lemma strip_prefix_app a b s :
  Re.strip_prefix (a ++ b)%string s
  = match Re.strip_prefix a s with
    | Some t => Re.strip_prefix b t
    | None => None
    end.
Proof.
  revert s. induction a as [|c a IH]; intros s; cbn [append Re.strip_prefix].
  - destruct b; reflexivity.
  - destruct s as [|d s]; [reflexivity|]. destruct (Ascii.eqb c d); [apply IH|reflexivity].
Qed.

Lemma not_special_plain c :
  Re.is_special c = false ->
  Ascii.eqb c "$" = false /\ Ascii.eqb c "." = false /\ Ascii.eqb c "^" = false.
Proof. by_bits c; intros; repeat split; reflexivity. Qed.

Lemma read_quant_plain s :
  no_special s = true -> Re.read_quant s = (Re.One, s).
Proof.
  destruct s as [|c s]; [reflexivity|]. unfold no_special. cbn [all_chars].
  intros H. apply andb_prop in H. destruct H as [Hc _]. apply negb_true_iff in Hc.
  unfold Re.read_quant.
  destruct c as [[] [] [] [] [] [] [] []]; try reflexivity; discriminate Hc.
Qed.

Lemma parse_items_plain fuel : forall t,
  no_special t = true -> String.length t <= fuel ->
  exists items,
    Re.parse_items fuel t = Some (items, false) /\
    forall n s, Re.match_here items false n s = has_prefix t s.
Proof.
  induction fuel as [|fuel IH]; intros t Ht Hlen.
  - destruct t; [|simpl in Hlen; lia]. exists []. split; [reflexivity|].
    intros n s. unfold has_prefix. destruct s; reflexivity.
  - destruct t as [|c r].
    + exists []. split; [reflexivity|]. intros n s. unfold has_prefix. destruct s; reflexivity.
    + pose proof Ht as Ht'. unfold no_special in Ht'. cbn [all_chars] in Ht'.
      apply andb_prop in Ht'. destruct Ht' as [Hc Hr]. apply negb_true_iff in Hc.
      destruct (not_special_plain c Hc) as [H1 [H2 _]].
      cbn [Re.parse_items]. rewrite H1, H2, Hc.
      pose proof (span_cont_spec r) as Hsp.
      destruct (Re.span_cont r) as [cont r'] eqn:Esp.
      assert (Hr' : no_special r' = true).
      { unfold no_special in *. rewrite Hsp, all_chars_app in Hr.
        apply andb_prop in Hr. tauto. }
      assert (Hl' : String.length r' <= fuel).
      { assert (String.length r = String.length cont + String.length r')
          by (rewrite Hsp at 1; apply string_length_app).
        simpl in Hlen. lia. }
      rewrite (read_quant_plain r' Hr').
      destruct (IH r' Hr' Hl') as [items [Hp Hm]].
      rewrite Hp. cbn [option_map].
      exists ((Re.Lit (String c cont), Re.One) :: items). split; [reflexivity|].
      intros n s. cbn [Re.match_here Re.eat]. unfold has_prefix.
      replace (String c r) with (String c cont ++ r')%string
        by (cbn [append]; rewrite <- Hsp; reflexivity).
      rewrite strip_prefix_app.
      destruct (Re.strip_prefix (String c cont) s) as [t'|]; [|reflexivity].
      rewrite Hm. reflexivity.
Qed.

Lemma search_from_plain items t :
  (forall n s, Re.match_here items false n s = has_prefix t s) ->
  forall n s, Re.search_from (Re.mkRegex false items false) n s = is_substring t s.
Proof.
  intros Hm n s. induction s as [|c s IH].
  - cbn [Re.search_from Re.items Re.anchored_end is_substring]. rewrite Hm.
    unfold has_prefix. destruct (Re.strip_prefix t ""); reflexivity.
  - cbn [Re.search_from Re.items Re.anchored_end is_substring]. rewrite Hm.
    unfold has_prefix. destruct (Re.strip_prefix t (String c s)); [reflexivity|].
    cbn [orb]. exact IH.
Qed.

(** Property X8.  A supplier text without regular-expression operators
    compiles as a pattern, and the filter then keeps exactly the cells whose
    text contains it, letter case apart. *)
Theorem X8_plain_text_is_substring fornecedor :
  no_special fornecedor = true ->
  exists r,
    Re.compile (upper fornecedor) = Some r /\
    forall c, contains_cell r c = contains_substring_ci fornecedor c.
Proof.
  intros H. apply upper_no_special in H.
  set (t := upper fornecedor) in *.
  destruct (parse_items_plain (String.length t) t H (le_n _)) as [items [Hp Hm]].
  exists (Re.mkRegex false items false). split.
  - unfold Re.compile.
    assert (E : match t with String "^" r => (true, r) | _ => (false, t) end = (false, t)).
    { destruct t as [|c r]; [reflexivity|].
      unfold no_special in H. cbn [all_chars] in H. apply andb_prop in H.
      destruct H as [Hc _]. apply negb_true_iff in Hc.
      destruct c as [[] [] [] [] [] [] [] []]; try reflexivity; discriminate Hc. }
    rewrite E, Hp. reflexivity.
  - intros [|d|s]; try reflexivity.
    cbn [contains_cell contains_substring_ci]. unfold Re.search. cbn [Re.anchored_start].
    fold t. apply search_from_plain. exact Hm.
Qed.

(** X8 for the text Acme. *)
Lemma X8_plain_text_is_substring_witness :
  exists r,
    Re.compile (upper "Acme") = Some r /\
    forall c, contains_cell r c = contains_substring_ci "Acme" c.
Proof. apply (X8_plain_text_is_substring "Acme"). reflexivity. Defined.

(** ** Counts under the supplier filter *)

Lemma filter_combine_map {A B} (g : A -> B) (p : B -> bool) l :
  map snd (filter (fun cr => p (fst cr)) (combine (map g l) l)) = filter (fun x => p (g x)) l.
Proof.
  induction l as [|x l IH]; simpl; auto.
  destruct (p (g x)); simpl; rewrite IH; reflexivity.
Qed.

Lemma length_dedup l : length (dedup l) <= length l.
Proof.
  induction l as [|x l IH]; simpl; auto.
  pose proof (filter_length_le (fun y => negb (cell_eqb x y)) (dedup l)). lia.
Qed.

Lemma nunique_le s : nunique s <= length s.
Proof.
  unfold nunique. eapply Nat.le_trans; [apply length_dedup|apply filter_length_le].
Qed.

Lemma existsb_map_comp {A B} (p : B -> bool) (g : A -> B) l :
  existsb p (map g l) = existsb (fun x => p (g x)) l.
Proof. induction l as [|x l IH]; simpl; auto. rewrite IH. reflexivity. Qed.

Lemma filter_fornecedor_ok df f r :
  count_label "FORNECEDOR" (columns df) = 1 ->
  existsb (fun row => is_str (get_labelled "FORNECEDOR" (columns df) row)) (rows df) = true ->
  Re.compile (upper f) = Some r ->
  filter_fornecedor df f = Returns (mkDF (columns df) (matching_rows r df)).
Proof.
  intros Hc Hs Hr. unfold filter_fornecedor.
  rewrite (column_unique _ _ _ Hc). cbn [obind].
  rewrite existsb_map_comp, Hs. cbn [negb]. rewrite Hr. unfold matching_rows.
  rewrite (filter_combine_map (get_labelled "FORNECEDOR" (columns df)) (contains_cell r)).
  reflexivity.
Qed.

(** Property X9.  With a supplier filter that compiles, on a non-empty
    table whose FORNECEDOR column is unique and holds text: when no row
    matches, the tool returns the no-supplier error whatever is counted;
    otherwise the item count is the number of matching rows, between one
    and the number of rows of the table, and the note count is the number
    of distinct keys on the matching rows, at most the item count. *)
Theorem X9_filtered_counts df fornecedor r :
  df_empty df = false ->
  fornecedor <> EmptyString ->
  count_label "FORNECEDOR" (columns df) = 1 ->
  existsb (fun row => is_str (get_labelled "FORNECEDOR" (columns df) row)) (rows df) = true ->
  Re.compile (upper fornecedor) = Some r ->
  let kept := matching_rows r df in
  (kept = [] ->
     forall contar_o_que,
       contar_notas_ou_itens df contar_o_que (Some fornecedor)
       = Returns (erro_fornecedor fornecedor)) /\
  (kept <> [] ->
     contar_notas_ou_itens df "itens" (Some fornecedor) = Returns (JContagem (length kept)) /\
     1 <= length kept <= length (rows df) /\
     (count_label chave (columns df) = 1 ->
        let notas := nunique (map (get_labelled chave (columns df)) kept) in
        contar_notas_ou_itens df "notas" (Some fornecedor) = Returns (JContagem notas) /\
        notas <= length kept)).
Proof.
  intros He Hne Hc Hs Hr kept.
  assert (Ht : truthy (Some fornecedor) = Some fornecedor)
    by (destruct fornecedor; [congruence|reflexivity]).
  assert (Hcols : columns df <> []).
  { intro E. rewrite E in Hc. discriminate Hc. }
  assert (Hemp : df_empty (mkDF (columns df) kept) = (length kept =? 0)%nat).
  { unfold df_empty. cbn [columns rows]. destruct (columns df); [congruence|reflexivity]. }
  split.
  - intros Hk c. unfold contar_notas_ou_itens.
    rewrite He, Ht, (filter_fornecedor_ok df fornecedor r Hc Hs Hr). cbn [obind].
    fold kept. rewrite Hemp, Hk. reflexivity.
  - intros Hk.
    assert (Hpos : length kept <> 0) by (destruct kept; [congruence|discriminate]).
    assert (Hle : length kept <= length (rows df)) by apply filter_length_le.
    unfold contar_notas_ou_itens.
    rewrite He, Ht, (filter_fornecedor_ok df fornecedor r Hc Hs Hr). cbn [obind].
    fold kept. rewrite Hemp.
    replace (length kept =? 0)%nat with false by (symmetry; apply Nat.eqb_neq; exact Hpos).
    unfold contagem.
    change (String.eqb "itens" "notas") with false.
    change (String.eqb "itens" "itens") with true.
    change (String.eqb "notas" "notas") with true. cbv iota. cbn [rows columns].
    split; [reflexivity|]. split; [lia|].
    intros Hkey. cbv zeta. unfold column. cbn [columns rows]. rewrite Hkey. cbn [obind].
    split; [reflexivity|].
    eapply Nat.le_trans; [apply nunique_le|]. rewrite length_map. lia.
Qed.

(** The sample table has two items on one note for the supplier acme. *)
Lemma X9_filtered_counts_witness :
  contar_notas_ou_itens ex_tabela "itens" (Some "acme"%string) = Returns (JContagem 2) /\
  contar_notas_ou_itens ex_tabela "notas" (Some "acme"%string) = Returns (JContagem 1).
Proof.
  destruct (Re.compile (upper "acme")) as [r|] eqn:E; [|discriminate E].
  destruct (X9_filtered_counts ex_tabela "acme"%string r) as [_ H]; try reflexivity.
  - discriminate.
  - exact E.
  - injection E as <-.
    destruct H as [H1 [_ H3]]; [discriminate|].
    split; [exact H1|]. destruct (H3 eq_refl) as [H4 _]. exact H4.
Defined.

(** ** Sums of numbers *)

Lemma pow10_add a b : (pow10 (a + b) = pow10 a * pow10 b)%Z.
Proof. unfold pow10. rewrite Nat2Z.inj_add. apply Z.pow_add_r; lia. Qed.

Lemma at_scale_add s a b :
  scale a <= s -> scale b <= s ->
  at_scale s (dec_add a b) = (at_scale s a + at_scale s b)%Z.
Proof.
  intros Ha Hb. unfold at_scale, dec_add. cbn [mant scale].
  set (m := Nat.max (scale a) (scale b)).
  assert (Hm : m <= s) by (unfold m; lia).
  replace (s - scale a) with ((m - scale a) + (s - m)) by (unfold m; lia).
  replace (s - scale b) with ((m - scale b) + (s - m)) by (unfold m; lia).
  rewrite !pow10_add. ring.
Qed.

Lemma max_scale_cons d l : max_scale (d :: l) = Nat.max (scale d) (max_scale l).
Proof. reflexivity. Qed.

Lemma fold_dec_add_scale l acc :
  scale (fold_left dec_add l acc) = Nat.max (scale acc) (max_scale l).
Proof.
  revert acc. induction l as [|d l IH]; intros acc; cbn [fold_left].
  - cbn. lia.
  - rewrite IH, max_scale_cons. unfold dec_add. cbn [scale]. lia.
Qed.

Lemma fold_dec_add_at s l acc :
  scale acc <= s -> max_scale l <= s ->
  at_scale s (fold_left dec_add l acc)
  = (at_scale s acc + fold_right (fun d z => at_scale s d + z) 0 l)%Z.
Proof.
  revert acc. induction l as [|d l IH]; intros acc Ha Hl; cbn [fold_left fold_right].
  - lia.
  - rewrite max_scale_cons in Hl.
    rewrite IH; [|unfold dec_add; cbn [scale]; lia|lia].
    rewrite at_scale_add by lia. lia.
Qed.

Lemma dec_eq_at a b :
  scale a = scale b -> at_scale (scale a) a = at_scale (scale a) b -> a = b.
Proof.
  destruct a as [ma sa], b as [mb sb]. cbn [scale]. intros <-.
  unfold at_scale. cbn [mant scale]. rewrite Nat.sub_diag.
  change (pow10 0) with 1%Z. rewrite !Z.mul_1_r. congruence.
Qed.

Lemma dec_sum_scale l : scale (dec_sum l) = max_scale l.
Proof. unfold dec_sum. rewrite fold_dec_add_scale. reflexivity. Qed.

Lemma dec_sum_at s l :
  max_scale l <= s ->
  at_scale s (dec_sum l) = fold_right (fun d z => at_scale s d + z)%Z 0%Z l.
Proof.
  intros H. unfold dec_sum. rewrite fold_dec_add_at; [|unfold dec_zero; cbn [scale]; lia|exact H].
  unfold at_scale, dec_zero. cbn [mant]. lia.
Qed.

Lemma max_scale_perm l l' : Permutation l l' -> max_scale l = max_scale l'.
Proof. induction 1; rewrite ?max_scale_cons; lia. Qed.

Lemma sum_at_perm s l l' :
  Permutation l l' ->
  fold_right (fun d z => at_scale s d + z)%Z 0%Z l
  = fold_right (fun d z => at_scale s d + z)%Z 0%Z l'.
Proof. induction 1; cbn [fold_right] in *; lia. Qed.

Lemma dec_sum_perm l l' : Permutation l l' -> dec_sum l = dec_sum l'.
Proof.
  intros H. apply dec_eq_at.
  - rewrite !dec_sum_scale. apply max_scale_perm. exact H.
  - rewrite !dec_sum_at; rewrite ?dec_sum_scale; try lia.
    + apply sum_at_perm. exact H.
    + rewrite (max_scale_perm _ _ H). lia.
Qed.

Lemma max_scale_app l1 l2 : max_scale (l1 ++ l2) = Nat.max (max_scale l1) (max_scale l2).
Proof.
  induction l1 as [|d l1 IH]; [reflexivity|].
  rewrite <- app_comm_cons.
  rewrite (max_scale_cons d (l1 ++ l2)), (max_scale_cons d l1), IH. lia.
Qed.

Lemma sum_at_app s l1 l2 :
  fold_right (fun d z => at_scale s d + z)%Z 0%Z (l1 ++ l2)
  = (fold_right (fun d z => at_scale s d + z) 0 l1
     + fold_right (fun d z => at_scale s d + z) 0 l2)%Z.
Proof.
  induction l1 as [|d l1 IH]; [simpl; lia|].
  rewrite <- app_comm_cons. cbn [fold_right]. rewrite IH. lia.
Qed.

Lemma max_scale_sums {A} (g : A -> list dec) ks :
  max_scale (map (fun k => dec_sum (g k)) ks) = max_scale (flat_map g ks).
Proof.
  induction ks as [|k ks IH]; [reflexivity|].
  cbn [map flat_map]. rewrite max_scale_cons, max_scale_app, dec_sum_scale, IH. reflexivity.
Qed.

(** The sum of the sums of the parts is the sum of the whole. *)
Lemma dec_sum_of_sums {A} (g : A -> list dec) ks :
  dec_sum (map (fun k => dec_sum (g k)) ks) = dec_sum (flat_map g ks).
Proof.
  apply dec_eq_at.
  - rewrite !dec_sum_scale. apply max_scale_sums.
  - rewrite !dec_sum_at; rewrite ?dec_sum_scale, ?max_scale_sums; try lia.
    set (s := max_scale (flat_map g ks)).
    assert (Hs : max_scale (flat_map g ks) <= s) by (unfold s; lia).
    clearbody s. induction ks as [|k ks IH]; [reflexivity|].
    cbn [map flat_map fold_right] in *. rewrite max_scale_app in Hs.
    rewrite sum_at_app, dec_sum_at by lia. rewrite IH by lia. reflexivity.
Qed.

(** ** The groups partition the rows *)

Lemma flat_map_filter_nil {A B} (p : A -> B -> bool) K :
  flat_map (fun k => filter (p k) []) K = [].
Proof. induction K as [|k K IH]; simpl; auto. Qed.

Lemma partition_cons_none {B} (key : B -> cell) K (x : B) l :
  filter (fun k => cell_eqb k (key x)) K = [] ->
  flat_map (fun k => filter (fun y => cell_eqb k (key y)) (x :: l)) K
  = flat_map (fun k => filter (fun y => cell_eqb k (key y)) l) K.
Proof.
  induction K as [|k K IH]; intros H; [reflexivity|].
  cbn [filter] in H. destruct (cell_eqb k (key x)) eqn:E; [discriminate|].
  cbn [flat_map]. rewrite (IH H). f_equal.
  change (filter (fun y => cell_eqb k (key y)) (x :: l))
    with (if cell_eqb k (key x) then x :: filter (fun y => cell_eqb k (key y)) l
          else filter (fun y => cell_eqb k (key y)) l).
  rewrite E. reflexivity.
Qed.

Lemma partition_cons_one {B} (key : B -> cell) K (x : B) l :
  length (filter (fun k => cell_eqb k (key x)) K) = 1 ->
  Permutation (flat_map (fun k => filter (fun y => cell_eqb k (key y)) (x :: l)) K)
              (x :: flat_map (fun k => filter (fun y => cell_eqb k (key y)) l) K).
Proof.
  induction K as [|k K IH]; intros H; [discriminate|].
  cbn [filter] in H. cbn [flat_map].
  change (filter (fun y => cell_eqb k (key y)) (x :: l))
    with (if cell_eqb k (key x) then x :: filter (fun y => cell_eqb k (key y)) l
          else filter (fun y => cell_eqb k (key y)) l).
  destruct (cell_eqb k (key x)) eqn:E.
  - cbn [length] in H. injection H as H. apply length_zero_iff_nil in H.
    rewrite (partition_cons_none key K x l H). reflexivity.
  - eapply perm_trans; [apply Permutation_app_head; exact (IH H)|].
    apply Permutation_sym, Permutation_middle.
Qed.

Lemma partition_perm {B} (key : B -> cell) K (l : list B) :
  (forall x, In x l -> length (filter (fun k => cell_eqb k (key x)) K) = 1) ->
  Permutation (flat_map (fun k => filter (fun y => cell_eqb k (key y)) l) K) l.
Proof.
  induction l as [|x l IH]; intros H.
  - rewrite flat_map_filter_nil. constructor.
  - eapply perm_trans; [apply partition_cons_one; apply H; left; reflexivity|].
    apply perm_skip. apply IH. intros y Hy. apply H. right. exact Hy.
Qed.

Lemma groups_match_once ks x :
  In x ks -> isna x = false ->
  length (filter (fun k => cell_eqb k x)
            (sort_by key_leb (dedup (filter (fun k => negb (isna k)) ks)))) = 1.
Proof.
  intros Hin Hna.
  rewrite (filter_length_perm _ _ _ (sort_by_perm key_leb _)).
  rewrite (filter_ext _ (cell_eqb x)) by (intros k; apply cell_eqb_sym).
  pose proof (dedup_once x (filter (fun k => negb (isna k)) ks)) as Hle.
  destruct (dedup_covers x (filter (fun k => negb (isna k)) ks)) as [y [Hy E]].
  { apply filter_In. split; [exact Hin|]. rewrite Hna. reflexivity. }
  assert (Hy' : In y (filter (cell_eqb x) (dedup (filter (fun k => negb (isna k)) ks)))).
  { apply filter_In. split; [exact Hy|]. rewrite cell_eqb_sym. exact E. }
  destruct (filter (cell_eqb x) (dedup (filter (fun k => negb (isna k)) ks)));
    [contradiction|]. simpl in *. lia.
Qed.

Lemma numbers_app a b : numbers (a ++ b) = numbers a ++ numbers b.
Proof. unfold numbers. apply flat_map_app. Qed.

Lemma numbers_flat {A} (f : A -> list (cell * cell)) K :
  numbers (map snd (flat_map f K)) = flat_map (fun k => numbers (map snd (f k))) K.
Proof.
  induction K as [|k K IH]; [reflexivity|].
  cbn [flat_map]. rewrite map_app, numbers_app, IH. reflexivity.
Qed.

Lemma map_snd_combine {A B} (l1 : list A) (l2 : list B) :
  length l1 = length l2 -> map snd (combine l1 l2) = l2.
Proof.
  revert l2. induction l1 as [|a l1 IH]; intros [|b l2] H; simpl in *; try discriminate; auto.
  f_equal. apply IH. lia.
Qed.

(** The sums of the groups add up to the sum of the column, when no key
    is missing. *)
Lemma group_sums_total ks vs :
  length ks = length vs ->
  forallb (fun k => negb (isna k)) ks = true ->
  dec_sum (map (fun k => dec_sum (numbers (group_values k ks vs)))
               (sort_by key_leb (dedup (filter (fun k => negb (isna k)) ks))))
  = dec_sum (numbers vs).
Proof.
  intros Hlen Hna.
  rewrite (dec_sum_of_sums (fun k => numbers (group_values k ks vs))).
  apply dec_sum_perm. unfold group_values.
  rewrite <- (numbers_flat (fun k => filter (fun kv => cell_eqb k (fst kv)) (combine ks vs))).
  replace (numbers vs) with (numbers (map snd (combine ks vs)))
    by (rewrite (map_snd_combine ks vs Hlen); reflexivity).
  unfold numbers. apply Permutation_flat_map, Permutation_map.
  apply (partition_perm fst). intros [k v] Hin. cbn [fst].
  apply in_combine_l in Hin. apply groups_match_once; [exact Hin|].
  rewrite forallb_forall in Hna. apply negb_true_iff. auto.
Qed.

Lemma groupby_sum_eq key val df :
  count_label key (columns df) = 1 -> count_label val (columns df) = 1 ->
  forallb (fun row => negb (is_str (get_labelled val (columns df) row))) (rows df) = true ->
  let ks := map (get_labelled key (columns df)) (rows df) in
  let vs := map (get_labelled val (columns df)) (rows df) in
  groupby_sum key val df
  = Returns (map (fun k => (k, dec_sum (numbers (group_values k ks vs))))
                 (sort_by key_leb (dedup (filter (fun k => negb (isna k)) ks)))).
Proof.
  intros Hk Hv Hnum ks vs.
  unfold groupby_sum. rewrite (column_unique _ _ _ Hk), (column_unique _ _ _ Hv).
  cbn [obind]. fold ks vs.
  assert (Hs : existsb is_str vs = false).
  { apply existsb_is_str_map. intros row Hrow. rewrite forallb_forall in Hnum.
    apply negb_true_iff. auto. }
  rewrite Hs. reflexivity.
Qed.

(** Property X10.  On a non-empty table with unique ITEM and VALOR TOTAL
    labels, no text among the values, no missing item and values that
    float64 adds without rounding, the item ranking by value with a count
    that covers every row returns one entry per item, and the sums of the
    entries add up to the total that [calcular_valor_total_gasto] reports. *)
Theorem X10_item_totals_add_up df n k ordem :
  df_empty df = false ->
  py_int n = IntOk k ->
  (length (rows df) <=? Z.to_nat k)%nat = true ->
  count_label "ITEM" (columns df) = 1 ->
  count_label "VALOR TOTAL" (columns df) = 1 ->
  forallb (fun row => negb (is_str (get_labelled "VALOR TOTAL" (columns df) row))) (rows df)
    = true ->
  forallb (fun row => negb (isna (get_labelled "ITEM" (columns df) row))) (rows df) = true ->
  float_exact (numbers (map (get_labelled "VALOR TOTAL" (columns df)) (rows df))) = true ->
  exists total entries,
    calcular_valor_total_gasto df = Returns (JValorTotalGasto total) /\
    obter_top_n_itens_por df "valor" n ordem = Returns (JSeries entries) /\
    dec_sum (map snd entries) = total.
Proof.
  intros He Hn Hrows Hi Hv Hnum Hna _. apply Nat.leb_le in Hrows.
  set (ks := map (get_labelled "ITEM" (columns df)) (rows df)).
  set (vs := map (get_labelled "VALOR TOTAL" (columns df)) (rows df)).
  set (groups := sort_by key_leb (dedup (filter (fun k => negb (isna k)) ks))).
  set (agrupado := map (fun k => (k, dec_sum (numbers (group_values k ks vs)))) groups).
  assert (Hs : existsb is_str vs = false).
  { apply existsb_is_str_map. intros row Hrow. rewrite forallb_forall in Hnum.
    apply negb_true_iff. auto. }
  exists (dec_sum (numbers vs)), (firstn (Z.to_nat k) (sort_by (rank_before ordem) agrupado)).
  split; [|split].
  - unfold calcular_valor_total_gasto. rewrite He, (column_unique _ _ _ Hv). cbn [obind].
    fold vs. unfold series_sum. rewrite Hs. reflexivity.
  - unfold obter_top_n_itens_por. rewrite Hn, He.
    change (String.eqb "valor" "quantidade") with false.
    change (String.eqb "valor" "valor") with true. cbv iota.
    rewrite (groupby_sum_eq "ITEM" "VALOR TOTAL" df Hi Hv Hnum). cbn [obind].
    fold ks vs groups agrupado. rewrite select_ranked. reflexivity.
  - assert (Hlen : length agrupado <= Z.to_nat k).
    { unfold agrupado, groups. rewrite length_map.
      rewrite (Permutation_length (sort_by_perm key_leb _)).
      eapply Nat.le_trans; [apply length_dedup|].
      eapply Nat.le_trans; [apply filter_length_le|].
      unfold ks. rewrite length_map. exact Hrows. }
    rewrite firstn_all2
      by (rewrite (Permutation_length (sort_by_perm (rank_before ordem) agrupado)); exact Hlen).
    rewrite (dec_sum_perm _ (map snd agrupado))
      by (apply Permutation_map, sort_by_perm).
    unfold agrupado. rewrite map_map. cbn [snd].
    apply group_sums_total.
    + unfold ks, vs. rewrite !length_map. reflexivity.
    + unfold ks. rewrite forallb_forall. intros c Hc. apply in_map_iff in Hc.
      destruct Hc as [row [<- Hrow]]. rewrite forallb_forall in Hna. auto.
Qed.

(** X10 on the sample table with a count of ten. *)
Lemma X10_item_totals_add_up_witness :
  exists total entries,
    calcular_valor_total_gasto ex_tabela = Returns (JValorTotalGasto total) /\
    obter_top_n_itens_por ex_tabela "valor" (PyInt 10) "maior" = Returns (JSeries entries) /\
    dec_sum (map snd entries) = total.
Proof. apply (X10_item_totals_add_up ex_tabela (PyInt 10) 10%Z "maior"%string); reflexivity. Defined.

(** ** Normalising twice *)

















(** ** The step on frames it has already rewritten *)


















(** ** Questions once a table is published *)

(** Property X12.  Once a table with at least one row is published, a
    question is forwarded to the chat session: its text is returned as it
    is, and an exception from the session is not propagated but shown as
    an error on the page, with the apology returned and the tables
    untouched. *)
Theorem X12_question_forwarded cab its :
  wf_frameb cab = true -> wf_frameb its = true ->
  labels_unambiguous cab its = true ->
  (0 <? join_cardinality (key_strings (cabecalho_after cab))
                         (key_strings (itens_after its)))%nat = true ->
  exists m',
    agente_init (initial_mem (Some cab) (Some its)) = (m', Done tt) /\
    forall send_message query,
      consultar_ia send_message query m'
      = match send_message query with
        | inl text => (m', Done text)
        | inr e =>
            (mkMem (df_cabecalho m') (df_itens m') (df_consolidado m') (data_repo_df m')
                   (st_out m' ++ [MsgError ("Ocorreu um erro ao consultar a IA: " ++ e)%string]),
             Done "Desculpe, não consegui processar sua pergunta."%string)
        end.
Proof.
  intros Hwc Hwi Hl Hpos. apply Nat.ltb_lt in Hpos.
  pose proof (length_consolidate cab its Hwc Hwi Hl) as Hlen.
  eexists. split; [apply agente_init_ok; exact Hl|].
  intros send q. unfold consultar_ia.
  erewrite bind_done by reflexivity. cbn [df_consolidado].
  rewrite (df_empty_consolidate cab its Hl), Hlen.
  destruct (Nat.eqb_spec
              (join_cardinality (key_strings (cabecalho_after cab))
                                (key_strings (itens_after its))) 0) as [E|_]; [lia|].
  destruct (send q) as [text|e]; [reflexivity|].
  erewrite bind_done by reflexivity. reflexivity.
Qed.

(** X12 on the sample files, with a session that fails. *)
Lemma X12_question_forwarded_witness :
  exists m',
    agente_init (initial_mem (Some ex_cabecalho) (Some ex_itens)) = (m', Done tt) /\
    consultar_ia (fun _ => inr "timeout"%string) "Qual o total?"%string m'
    = (mkMem (df_cabecalho m') (df_itens m') (df_consolidado m') (data_repo_df m')
             (st_out m' ++ [MsgError "Ocorreu um erro ao consultar a IA: timeout"]),
       Done "Desculpe, não consegui processar sua pergunta."%string).
Proof.
  destruct (X12_question_forwarded ex_cabecalho ex_itens eq_refl eq_refl eq_refl eq_refl)
    as [m' [H1 H2]].
  exists m'. split; [exact H1|].
  exact (H2 (fun _ => inr "timeout"%string) "Qual o total?"%string).
Defined.
